(** * Repair-time log (app_reparo.py): start / stop of repairs keyed by VIN

    A shallow embedding of the database functions of [app_reparo.py]
    ([validar_vin], [verificar_reparo_aberto], [iniciar_reparo],
    [finalizar_reparo], [get_registros]) and of the two pieces of the
    Streamlit front end that the properties below talk about (the
    submit handler of the start form and the MTTR metric of the data tab).

    Modelling decisions.
    - The SQLite table [registros] is the list of its rows in rowid
      order.  The schema's [id TEXT PRIMARY KEY] is the predicate
      [pk_ok]; [sql_insert] refuses a duplicate id the way SQLite raises
      [sqlite3.IntegrityError].
    - A [datetime] is a number of microseconds (Z).  The text written by
      [strftime('%Y-%m-%d %H:%M:%S')] is the number of whole seconds: the
      format is fixed-width, so comparing the texts (what ORDER BY does)
      is comparing these numbers.
    - [datetime.now()], [uuid4()] and a failure of the storage layer are
      inputs of the operation ([Env]).
    - Python strings are [string]s of characters below 128 (keyboard or
      scanner text); [upper] and [strip] are the ASCII parts of
      [str.upper] and [str.strip].
    - Float arithmetic on minutes is exact rational arithmetic (Q). *)

From Stdlib Require Import ZArith QArith List String Ascii Bool Lia.
From Stdlib Require Import Permutation Sorted.
Import ListNotations.

Local Open Scope string_scope.
Local Open Scope list_scope.
Local Open Scope Z_scope.

(* ------------------------------------------------------------------ *)
(** ** Python strings *)

Module PyStr.

(** [str.isspace] on code points below 128: TAB..CR, FS..US, space. *)
Definition isspace (c : ascii) : bool :=
  let n := nat_of_ascii c in
  ((9 <=? n) && (n <=? 13) || (28 <=? n) && (n <=? 32))%nat.

Definition upper_char (c : ascii) : ascii :=
  let n := nat_of_ascii c in
  if ((97 <=? n) && (n <=? 122))%nat then ascii_of_nat (n - 32) else c.

(** [s.upper()] *)
Fixpoint upper (s : string) : string :=
  match s with
  | EmptyString => EmptyString
  | String c t => String (upper_char c) (upper t)
  end.

Fixpoint lstrip (s : string) : string :=
  match s with
  | EmptyString => EmptyString
  | String c t => if isspace c then lstrip t else s
  end.

Fixpoint rstrip (s : string) : string :=
  match s with
  | EmptyString => EmptyString
  | String c t =>
      match rstrip t with
      | EmptyString => if isspace c then EmptyString else String c EmptyString
      | r => String c r
      end
  end.

(** [s.strip()] *)
Definition strip (s : string) : string := rstrip (lstrip s).

(** Truth value of a string: [not s] is [negb (truthy s)]. *)
Definition truthy (s : string) : bool :=
  match s with EmptyString => false | String _ _ => true end.

(** Truth value of an optional string argument ([None] or a string). *)
Definition truthy_opt (o : option string) : bool :=
  match o with None => false | Some s => truthy s end.

End PyStr.
Import PyStr.

(* ------------------------------------------------------------------ *)
(** ** The table [registros] *)

(** One row; [col_hora_inicio] and [col_hora_fim] hold the seconds of the
    stored text, [None] is SQL NULL. *)
Record Registro : Type := mkRegistro {
  col_id : string;
  col_vin : string;
  col_operador_id : string;
  col_tipo_retrabalho : option string;
  col_shop : option string;
  col_hora_inicio : Z;
  col_hora_fim : option Z
}.

Definition Tabela : Type := list Registro.

(** [id TEXT PRIMARY KEY] *)
Definition pk_ok (db : Tabela) : Prop := NoDup (map col_id db).

Definition is_null {A} (o : option A) : bool :=
  match o with None => true | Some _ => false end.

(** [datetime.strftime('%Y-%m-%d %H:%M:%S')]: microseconds are dropped. *)
Definition strftime (t : Z) : Z := t / 1000000.

(** [datetime.strptime(txt, '%Y-%m-%d %H:%M:%S')] *)
Definition strptime (s : Z) : Z := s * 1000000.

(** [int(td.total_seconds() / 60)] for a timedelta of [td] microseconds:
    [int] truncates towards zero. *)
Definition minutos_int (td : Z) : Z := Z.quot td 60000000.

(** [WHERE vin = ? AND hora_fim IS NULL] *)
Definition aberto_de (v : string) (r : Registro) : bool :=
  (col_vin r =? v)%string && is_null (col_hora_fim r).

Definition abertos (db : Tabela) (v : string) : list Registro :=
  filter (aberto_de v) db.

(** [ORDER BY hora_inicio DESC LIMIT 1]: a row of greatest [hora_inicio].
    SQL leaves the choice among equal keys open; the model keeps the
    first such row in rowid order. *)
Definition mais_recente (best r : Registro) : Registro :=
  if col_hora_inicio best <? col_hora_inicio r then r else best.

Definition order_by_inicio_desc_limit1 (l : list Registro) : option Registro :=
  match l with
  | [] => None
  | x :: xs => Some (fold_left mais_recente xs x)
  end.

(** [INSERT INTO registros ...]: the primary key rejects a duplicate id. *)
Definition sql_insert (db : Tabela) (r : Registro) : option Tabela :=
  if existsb (fun x => (col_id x =? col_id r)%string) db then None
  else Some (db ++ [r]).

Definition set_hora_fim (t : Z) (r : Registro) : Registro :=
  mkRegistro (col_id r) (col_vin r) (col_operador_id r)
             (col_tipo_retrabalho r) (col_shop r) (col_hora_inicio r) (Some t).

(** [UPDATE registros SET hora_fim = ? WHERE id = ?] *)
Definition sql_update_hora_fim (db : Tabela) (t : Z) (i : string) : Tabela :=
  map (fun r => if (col_id r =? i)%string then set_hora_fim t r else r) db.

(* ------------------------------------------------------------------ *)
(** ** Results *)

(** The messages returned with [False]. *)
Inductive Erro : Type :=
| VinVazio                      (* "VIN não pode estar vazio." *)
| ReparoEmAberto (minutos : Z)  (* "Já existe um reparo em aberto ... há {minutos} minutos ..." *)
| ErroAoIniciar                 (* "Erro ao iniciar: {e}" *)
| NenhumReparoAberto.           (* "Nenhum reparo em aberto encontrado para este VIN." *)

(** What the operation reads from outside the table. *)
Record Env : Type := mkEnv {
  agora : Z;             (* datetime.now(), microseconds *)
  uuid4 : string;        (* str(uuid4()) *)
  sqlite_falha : bool    (* execute/commit raises sqlite3.Error *)
}.

(* ------------------------------------------------------------------ *)
(** ** The operations *)

Definition validar_vin (vin : string) : Erro + string :=
  if negb (truthy vin) then inl VinVazio
  else
    let vin_limpo := strip (upper vin) in
    inr vin_limpo.

(** SELECT id, operador_id, hora_inicio ... LIMIT 1 *)
Definition verificar_reparo_aberto (db : Tabela) (vin : string)
  : option (string * string * Z) :=
  match order_by_inicio_desc_limit1 (abertos db (upper vin)) with
  | Some r => Some (col_id r, col_operador_id r, col_hora_inicio r)
  | None => None
  end.

Definition iniciar_reparo (db : Tabela) (vin operador_id : string)
    (tipo_retrabalho shop : option string) (env : Env)
  : Tabela * (Erro + string) :=
  match validar_vin vin with
  | inl msg => (db, inl msg)
  | inr vin_formatado =>
      match verificar_reparo_aberto db vin_formatado with
      | Some (_, _, inicio) =>
          let hora_inicio_existente := strptime inicio in
          let tempo_decorrido := agora env - hora_inicio_existente in
          (db, inl (ReparoEmAberto (minutos_int tempo_decorrido)))
      | None =>
          let reparo_id := uuid4 env in
          let hora_inicio := strftime (agora env) in
          let linha :=
            mkRegistro reparo_id vin_formatado (upper (strip operador_id))
              (match tipo_retrabalho with
               | Some t => if truthy t then Some (strip t) else None
               | None => None
               end)
              (if truthy_opt shop then shop else None)
              hora_inicio None in
          if sqlite_falha env then (db, inl ErroAoIniciar)
          else
            match sql_insert db linha with
            | Some db' => (db', inr reparo_id)
            | None => (db, inl ErroAoIniciar)
            end
      end
  end.

(** Returns [(id, duracao, operador_id)] on success; [duracao] is a
    timedelta, in microseconds. *)
Definition finalizar_reparo (db : Tabela) (vin : string) (now : Z)
  : Tabela * (Erro + (string * Z * string)) :=
  match validar_vin vin with
  | inl msg => (db, inl msg)
  | inr vin_formatado =>
      let hora_fim := strftime now in
      match order_by_inicio_desc_limit1 (abertos db vin_formatado) with
      | Some reparo_incompleto =>
          let reparo_id := col_id reparo_incompleto in
          let hora_inicio := strptime (col_hora_inicio reparo_incompleto) in
          let operador_id := col_operador_id reparo_incompleto in
          let hora_fim_dt := strptime hora_fim in
          let duracao := hora_fim_dt - hora_inicio in
          (sql_update_hora_fim db hora_fim reparo_id,
           inr (reparo_id, duracao, operador_id))
      | None => (db, inl NenhumReparoAberto)
      end
  end.

(* ------------------------------------------------------------------ *)
(** ** The query *)

(** [DATE(hora_inicio)]: the day of a stored text, as a day number. *)
Definition sql_date (s : Z) : Z := s / 86400.

(** [if filtro: query += " AND col = ?"; params.append(filtro.upper())] *)
Definition cond_upper (filtro : option string) (col : string) : bool :=
  match filtro with
  | Some f => if truthy f then (col =? upper f)%string else true
  | None => true
  end.

(** The WHERE clause that [get_registros] assembles. *)
Definition where_registros (filtro_operador filtro_vin : option string)
    (filtro_data_inicio filtro_data_fim : option Z) (apenas_completos : bool)
    (r : Registro) : bool :=
  cond_upper filtro_operador (col_operador_id r)
  && cond_upper filtro_vin (col_vin r)
  && match filtro_data_inicio with
     | Some d => d <=? sql_date (col_hora_inicio r)
     | None => true
     end
  && match filtro_data_fim with
     | Some d => sql_date (col_hora_inicio r) <=? d
     | None => true
     end
  && (if apenas_completos then negb (is_null (col_hora_fim r)) else true).

(** [ORDER BY hora_inicio DESC], rows of equal key kept in rowid order. *)
Fixpoint inserir_desc (r : Registro) (l : list Registro) : list Registro :=
  match l with
  | [] => [r]
  | x :: t =>
      if col_hora_inicio r <? col_hora_inicio x then x :: inserir_desc r t
      else r :: l
  end.

Definition order_by_inicio_desc (l : list Registro) : list Registro :=
  fold_right inserir_desc [] l.

(** A row of the returned frame: the selected columns and the computed
    ones; [None] is NaN (the duration of a row without [hora_fim]). *)
Record Linha : Type := mkLinha {
  linha_reg : Registro;
  duracao_minutos : option Q;
  duracao_horas : option Q;
  data : Z
}.

(** [(hora_fim - hora_inicio).dt.total_seconds() / 60] *)
Definition calc_duracao_minutos (r : Registro) : option Q :=
  match col_hora_fim r with
  | Some fim =>
      let duracao := strptime fim - strptime (col_hora_inicio r) in
      Some ((inject_Z duracao / inject_Z 1000000) / inject_Z 60)%Q
  | None => None
  end.

Definition processar (r : Registro) : Linha :=
  let m := calc_duracao_minutos r in
  mkLinha r m
          (match m with Some q => Some (q / inject_Z 60)%Q | None => None end)
          (sql_date (col_hora_inicio r)).

Definition get_registros (db : Tabela)
    (filtro_operador filtro_vin : option string)
    (filtro_data_inicio filtro_data_fim : option Z) (apenas_completos : bool)
  : list Linha :=
  let df :=
    order_by_inicio_desc
      (filter (where_registros filtro_operador filtro_vin
                 filtro_data_inicio filtro_data_fim apenas_completos) db) in
  match df with
  | [] => []
  | _ => map processar df
  end.

(* ------------------------------------------------------------------ *)
(** ** The front end: metrics of the data tab, submit of the start form *)

(** [Series.dropna()] *)
Definition dropna (l : list (option Q)) : list Q :=
  flat_map (fun o => match o with Some q => [q] | None => [] end) l.

Definition soma (l : list Q) : Q := fold_right Qplus 0%Q l.

(** [Series.mean()] of a non-empty series *)
Definition mean (l : list Q) : Q :=
  (soma l / inject_Z (Z.of_nat (List.length l)))%Q.

(** The value shown as "Tempo Médio (MTTR)"; [None] when the tab shows
    one of its two "nothing found" notes instead. *)
Definition tempo_medio (df_registros : list Linha) : option Q :=
  match df_registros with
  | [] => None
  | _ =>
      let reparos_completos := dropna (map duracao_minutos df_registros) in
      match reparos_completos with
      | [] => None
      | _ => Some (mean reparos_completos)
      end
  end.

(** What the start form shows after a submit. *)
Inductive AvisoIniciar : Type :=
| VinObrigatorio
| OperadorObrigatorio
| ShopObrigatorio
| ErroDeValidacao (e : Erro)
| ReparoIniciado (reparo_id : string)
| FalhaAoIniciar (e : Erro).

(** The body of [if submitted:] of the form "form_iniciar_reparo"; the
    four arguments are the texts of the widgets. *)
Definition form_iniciar_reparo (db : Tabela)
    (vin_start operador_id tipo_retrabalho shop : string) (env : Env)
  : Tabela * AvisoIniciar :=
  if negb (truthy vin_start) then (db, VinObrigatorio)
  else if negb (truthy operador_id) then (db, OperadorObrigatorio)
  else if negb (truthy shop) then (db, ShopObrigatorio)
  else
    let vin_start_upper := strip (upper vin_start) in
    match validar_vin vin_start_upper with
    | inl msg_validacao => (db, ErroDeValidacao msg_validacao)
    | inr _ =>
        match iniciar_reparo db vin_start_upper operador_id
                (if truthy tipo_retrabalho then Some tipo_retrabalho else None)
                (Some shop) env with
        | (db', inr reparo_id) => (db', ReparoIniciado reparo_id)
        | (db', inl msg) => (db', FalhaAoIniciar msg)
        end
    end.

(* ------------------------------------------------------------------ *)
(** ** Histories *)

(** A call of one of the two writing operations, with what it reads from
    the outside. *)
Inductive Chamada : Type :=
| ChIniciar (vin operador_id : string) (tipo_retrabalho shop : option string)
            (env : Env)
| ChFinalizar (vin : string) (now : Z).

Definition executar (db : Tabela) (c : Chamada) : Tabela :=
  match c with
  | ChIniciar v o t s env => fst (iniciar_reparo db v o t s env)
  | ChFinalizar v now => fst (finalizar_reparo db v now)
  end.

(** The table after a history of calls. *)
Definition historia (cs : list Chamada) (db : Tabela) : Tabela :=
  fold_left executar cs db.

(** Number of open rows of a VIN. *)
Definition n_abertos (db : Tabela) (v : string) : nat :=
  List.length (abertos db v).

(** At most one open repair per VIN. *)
Definition um_aberto_por_vin (db : Tabela) : Prop :=
  forall v, (n_abertos db v <= 1)%nat.

(** The mean of [(hora_fim - hora_inicio)], in minutes, over the closed
    rows of a set of rows: the MTTR as the specification words it. *)
Definition duracao_em_minutos (inicio fim : Z) : Q :=
  (inject_Z (fim - inicio) / inject_Z 60)%Q.

Fixpoint duracoes_fechados (l : list Registro) : list Q :=
  match l with
  | [] => []
  | r :: t =>
      match col_hora_fim r with
      | Some fim => duracao_em_minutos (col_hora_inicio r) fim :: duracoes_fechados t
      | None => duracoes_fechados t
      end
  end.

(** Arithmetic mean of a sample; none for the empty sample. *)
Definition mttr_spec_de (ds : list Q) : option Q :=
  match ds with
  | [] => None
  | _ => Some (soma ds / inject_Z (Z.of_nat (List.length ds)))%Q
  end.

Definition mttr_spec (filtrados : list Registro) : option Q :=
  mttr_spec_de (duracoes_fechados filtrados).

(** The VALUES tuple of the INSERT of [iniciar_reparo], for the arguments
    of a call whose VIN passed [validar_vin]. *)
Definition valores_insert (vin operador_id : string)
    (tipo_retrabalho shop : option string) (env : Env) : Registro :=
  mkRegistro (uuid4 env) (strip (upper vin)) (upper (strip operador_id))
    (match tipo_retrabalho with
     | Some t => if truthy t then Some (strip t) else None
     | None => None
     end)
    (if truthy_opt shop then shop else None)
    (strftime (agora env)) None.

(** Some row of [db] is an open repair of the (normalized) VIN [v]. *)
Definition tem_aberto (db : Tabela) (v : string) : Prop :=
  exists r, In r db /\ col_vin r = v /\ col_hora_fim r = None.

(** [r] is an open row of [v] started no earlier than any other. *)
Definition aberto_mais_recente (db : Tabela) (v : string) (r : Registro) : Prop :=
  In r db /\ col_vin r = v /\ col_hora_fim r = None /\
  forall r', In r' db -> col_vin r' = v -> col_hora_fim r' = None ->
             col_hora_inicio r' <= col_hora_inicio r.

(** Two optional means agree: both absent, or both present and equal as
    rationals. *)
Definition mesma_media (a b : option Q) : Prop :=
  match a, b with
  | Some x, Some y => (x == y)%Q
  | None, None => True
  | _, _ => False
  end.

(* ------------------------------------------------------------------ *)
(** ** Sample data *)

(** 00:01:30.0 and 00:21:30.5 of the first day, as [datetime.now()]. *)
Definition env_ex1 : Env := mkEnv 90000000 "id-1" false.
Definition env_ex2 : Env := mkEnv 1290500000 "id-2" false.

(** The row written by the start of " abc123 " by "op1" under [env_ex1],
    and the same row closed under [env_ex2]. *)
Definition linha_ex : Registro :=
  mkRegistro "id-1" "ABC123" "OP1" (Some "rework") (Some "BS") 90 None.

Definition linha_ex_fechada : Registro :=
  mkRegistro "id-1" "ABC123" "OP1" (Some "rework") (Some "BS") 90 (Some 1290).

Definition tabela_ex : Tabela := [linha_ex].
Definition tabela_ex_fechada : Tabela := [linha_ex_fechada].

(** Three closed repairs of 10, 20 and 30 minutes. *)
Definition tabela_ex_mttr : Tabela :=
  [ mkRegistro "a" "VIN1" "OP1" None (Some "BS") 0 (Some 600);
    mkRegistro "b" "VIN2" "OP1" None (Some "PS") 1000 (Some 2200);
    mkRegistro "c" "VIN3" "OP2" None (Some "GA") 5000 (Some 6800) ].

(* ------------------------------------------------------------------ *)
(** ** The rest of the program *)

(** *** [init_db]: the schema of the table

    The state is the list of column names of [registros], [None] while
    the table does not exist.  SQLite compares column names without
    regard to ASCII case. *)
Definition colunas_create : list string :=
  ["id"; "vin"; "operador_id"; "tipo_retrabalho"; "shop";
   "hora_inicio"; "hora_fim"].

Definition tem_coluna (cols : list string) (c : string) : bool :=
  existsb (fun x => (upper x =? upper c)%string) cols.

(** [ALTER TABLE registros ADD COLUMN c TEXT]; [None] is the
    [sqlite3.OperationalError] of a duplicate column name. *)
Definition alter_add_column (cols : list string) (c : string)
  : option (list string) :=
  if tem_coluna cols c then None else Some (cols ++ [c]).

(** The columns of the table after [init_db()]. *)
Definition init_db (esquema : option (list string)) : list string :=
  let c0 := match esquema with
            | Some cols => cols           (* IF NOT EXISTS: left as it is *)
            | None => colunas_create
            end in
  let c1 := match alter_add_column c0 "tipo_retrabalho" with
            | Some cols => cols
            | None => c0                  (* except OperationalError: pass *)
            end in
  let c2 := match alter_add_column c1 "shop" with
            | Some cols => cols
            | None => c1
            end in
  c2.

(** *** [get_reparos_abertos] *)

(** A row of the frame of the open repairs. *)
Record LinhaAberta : Type := mkLinhaAberta {
  ab_vin : string;
  ab_operador_id : string;
  ab_tipo_retrabalho : option string;
  ab_shop : option string;
  ab_hora_inicio : Z;
  tempo_decorrido_min : Q
}.

Definition processar_aberta (now : Z) (r : Registro) : LinhaAberta :=
  let tempo_decorrido := now - strptime (col_hora_inicio r) in
  mkLinhaAberta (col_vin r) (col_operador_id r) (col_tipo_retrabalho r)
    (col_shop r) (col_hora_inicio r)
    ((inject_Z tempo_decorrido / inject_Z 1000000) / inject_Z 60)%Q.

Definition get_reparos_abertos (db : Tabela) (now : Z) : list LinhaAberta :=
  let df :=
    order_by_inicio_desc (filter (fun r => is_null (col_hora_fim r)) db) in
  match df with
  | [] => []
  | _ => map (processar_aberta now) df
  end.

(** *** Tab 1: the note under the start form *)

Inductive AvisoVin : Type :=
| SemAviso
| AvisoValidacao (e : Erro)
| AvisoJaAberto (minutos : Z).

(** "Validação visual do VIN" for the text [vin_start_atual] of the
    widget. *)
Definition validacao_visual (db : Tabela) (vin_start_atual : string)
    (now : Z) : AvisoVin :=
  if truthy vin_start_atual then
    let vin_start_upper := strip (upper vin_start_atual) in
    match validar_vin vin_start_upper with
    | inl msg_validacao => AvisoValidacao msg_validacao
    | inr _ =>
        match verificar_reparo_aberto db vin_start_upper with
        | Some (_, _, inicio) =>
            let hora_inicio_existente := strptime inicio in
            let tempo_decorrido := now - hora_inicio_existente in
            AvisoJaAberto (minutos_int tempo_decorrido)
        | None => SemAviso
        end
    end
  else SemAviso.

(** *** Tab 2: the stop form and the note under it *)

Inductive AvisoFinalizar : Type :=
| PreenchaVin                  (* "Preencha o VIN para finalizar." *)
| Atencao (e : Erro)
| ReparoFinalizado (minutos : Z) (horas : Q) (operador : string).

(** The body of [if submitted_finalizar:]. *)
Definition form_finalizar_reparo (db : Tabela) (vin_end : string) (now : Z)
  : Tabela * AvisoFinalizar :=
  if truthy vin_end then
    let vin_end_upper := strip (upper vin_end) in
    match finalizar_reparo db vin_end_upper now with
    | (db', inr (_, duracao, operador)) =>
        let minutos := minutos_int duracao in
        let horas := (inject_Z minutos / inject_Z 60)%Q in
        (db', ReparoFinalizado minutos horas operador)
    | (db', inl msg) => (db', Atencao msg)
    end
  else (db, PreenchaVin).



(** *** Tab 3: the frame and its three metrics *)

(** The call of [get_registros] with the texts of the filter widgets. *)
Definition aba_visualizar (db : Tabela) (filtro_operador filtro_vin : string)
    (filtro_data_inicio filtro_data_fim : option Z) (apenas_completos : bool)
  : list Linha :=
  get_registros db
    (if truthy filtro_operador then Some filtro_operador else None)
    (if truthy filtro_vin then Some (upper filtro_vin) else None)
    filtro_data_inicio filtro_data_fim apenas_completos.

(** [(tempo_medio, tempo_total, total_reparos)]; [None] when one of the
    two "nothing found" notes is shown. *)
Definition metricas (df_registros : list Linha) : option (Q * Q * nat) :=
  match df_registros with
  | [] => None
  | _ =>
      let reparos_completos := dropna (map duracao_minutos df_registros) in
      match reparos_completos with
      | [] => None
      | _ => Some (mean reparos_completos, soma reparos_completos,
                   List.length reparos_completos)
      end
  end.

(** *** Tab 5: grouped counts and the history of a VIN *)

Section GroupBy.

Context {K : Type} (cmp : K -> K -> comparison).

(** One more row of key [k] in a table of counts kept in key order. *)
Fixpoint contar (k : K) (l : list (K * nat)) : list (K * nat) :=
  match l with
  | [] => [(k, 1%nat)]
  | (x, n) :: t =>
      match cmp k x with
      | Eq => (x, S n) :: t
      | Lt => (k, 1%nat) :: l
      | Gt => (x, n) :: contar k t
      end
  end.

(** [df.groupby(col).size()]: one entry per key, keys ascending. *)
Definition groupby_size (chaves : list K) : list (K * nat) :=
  fold_left (fun acc k => contar k acc) chaves [].

(** The count of key [k] in a table of counts kept in key order. *)
Fixpoint procurar (k : K) (l : list (K * nat)) : nat :=
  match l with
  | [] => 0%nat
  | (x, n) :: t =>
      match cmp k x with
      | Eq => n
      | Lt => 0%nat
      | Gt => procurar k t
      end
  end.

(** [x] is the key [k]. *)
Definition eh_chave (k x : K) : bool :=
  match cmp k x with Eq => true | _ => false end.

(** [.sort_values(ascending=False)]; entries of equal value keep their
    order. *)
Fixpoint inserir_valor_desc (e : K * nat) (l : list (K * nat))
  : list (K * nat) :=
  match l with
  | [] => [e]
  | x :: t =>
      if (snd e <? snd x)%nat then x :: inserir_valor_desc e t else e :: l
  end.

Definition sort_values_desc (l : list (K * nat)) : list (K * nat) :=
  fold_right inserir_valor_desc [] l.

End GroupBy.

(** [df_registros.groupby('Operador').size().sort_values(ascending=False)] *)
Definition reparos_por_operador (df_registros : list Linha)
  : list (string * nat) :=
  sort_values_desc
    (groupby_size String.compare
       (map (fun l => col_operador_id (linha_reg l)) df_registros)).

(** [df_registros.groupby('Data').size()] *)
Definition reparos_por_data (df_registros : list Linha) : list (Z * nat) :=
  groupby_size Z.compare (map data df_registros).

(** "Histórico por VIN": the frame for the text [vin_busca].  The search
    sits in the [else] of [if df_registros.empty:], so there is none
    ([None]) while the table has no closed repair, and none while the
    widget is empty. *)
Definition historico_vin (db : Tabela) (vin_busca : string)
  : option (list Linha) :=
  let df_registros := get_registros db None None None None true in
  match df_registros with
  | [] => None
  | _ =>
      if truthy vin_busca then
        let vin_busca := strip (upper vin_busca) in
        Some (get_registros db None (Some vin_busca) None None false)
      else None
  end.

(** *** A run of the script after a submit

    The handler of a form runs first; the note under the form is
    computed afterwards, in the same run, for the same text and on the
    table the handler has left. [now'] is the later reading of the
    clock. *)
Definition aba_iniciar_submit (db : Tabela)
    (vin_start operador_id tipo_retrabalho shop : string) (env : Env)
    (now' : Z) : Tabela * AvisoIniciar * AvisoVin :=
  let '(db', aviso) :=
    form_iniciar_reparo db vin_start operador_id tipo_retrabalho shop env in
  (db', aviso, validacao_visual db' vin_start now').


(** The text is in the domain on which [upper] and [strip] are
    [str.upper] and [str.strip]: code points below 128. *)
Fixpoint texto_ascii (s : string) : bool :=
  match s with
  | EmptyString => true
  | String c t => (nat_of_ascii c <? 128)%nat && texto_ascii t
  end.

(** *** Histories and the clock *)

(** The reading of [datetime.now()] in a call. *)
Definition relogio (c : Chamada) : Z :=
  match c with
  | ChIniciar _ _ _ _ env => agora env
  | ChFinalizar _ now => now
  end.

(** The clock never goes back along the history, starting from [t]. *)
Fixpoint relogio_nao_recua (t : Z) (cs : list Chamada) : bool :=
  match cs with
  | [] => true
  | c :: cs' => (t <=? relogio c) && relogio_nao_recua (relogio c) cs'
  end.

(** The columns that no statement of the program updates. *)
Definition dados_fixos (r : Registro)
  : string * string * string * option string * option string * Z :=
  (col_id r, col_vin r, col_operador_id r, col_tipo_retrabalho r,
   col_shop r, col_hora_inicio r).

(** The order of ORDER BY hora_inicio DESC: [a] may come before [b]. *)
Definition inicio_desc (a b : Registro) : Prop :=
  col_hora_inicio b <= col_hora_inicio a.

(** A stored text is in the form [validar_vin] gives it. *)
Definition vin_normalizado (v : string) : Prop := strip (upper v) = v.

(* ------------------------------------------------------------------ *)
(** * Facts about the string functions *)

Section PyStrFacts.

Lemma isspace_upper_char (c : ascii) : isspace (upper_char c) = isspace c.
Proof. destruct c as [[] [] [] [] [] [] [] []]; reflexivity. Qed.

Lemma upper_char_idem (c : ascii) : upper_char (upper_char c) = upper_char c.
Proof. destruct c as [[] [] [] [] [] [] [] []]; reflexivity. Qed.

Lemma upper_idem (s : string) : upper (upper s) = upper s.
Proof.
  induction s as [|c t IH]; simpl; [reflexivity|].
  now rewrite upper_char_idem, IH.
Qed.

Lemma upper_lstrip (s : string) : upper (lstrip s) = lstrip (upper s).
Proof.
  induction s as [|c t IH]; simpl; [reflexivity|].
  rewrite isspace_upper_char.
  destruct (isspace c); [exact IH | reflexivity].
Qed.

Lemma upper_rstrip (s : string) : upper (rstrip s) = rstrip (upper s).
Proof.
  induction s as [|c t IH]; simpl; [reflexivity|].
  rewrite <- IH, isspace_upper_char.
  destruct (rstrip t) as [|c' r]; simpl.
  - destruct (isspace c); reflexivity.
  - reflexivity.
Qed.

Lemma upper_strip (s : string) : upper (strip s) = strip (upper s).
Proof. unfold strip. now rewrite upper_rstrip, upper_lstrip. Qed.

(** The text stored by [validar_vin] is a fixed point of [upper]: the
    second [upper] of [verificar_reparo_aberto] changes nothing. *)
Lemma upper_vin_limpo (v : string) : upper (strip (upper v)) = strip (upper v).
Proof. now rewrite upper_strip, upper_idem. Qed.

Lemma truthy_false (s : string) : truthy s = false <-> s = "".
Proof. destruct s; simpl; split; congruence. Qed.

Lemma truthy_true (s : string) : truthy s = true <-> s <> "".
Proof. destruct s; simpl; split; congruence. Qed.

Lemma validar_vin_ok (v : string) :
  v <> "" -> validar_vin v = inr (strip (upper v)).
Proof.
  intros Hv. unfold validar_vin.
  apply truthy_true in Hv. now rewrite Hv.
Qed.

Lemma validar_vin_vazio : validar_vin "" = inl VinVazio.
Proof. reflexivity. Qed.

End PyStrFacts.

(* ------------------------------------------------------------------ *)
(** * Facts about the SQL fragments *)

Section SqlFacts.

Lemma fold_mais_recente_in (xs : list Registro) :
  forall x, In (fold_left mais_recente xs x) (x :: xs).
Proof.
  induction xs as [|y ys IH]; intros x; simpl.
  - now left.
  - destruct (IH (mais_recente x y)) as [H|H].
    + unfold mais_recente in H at 1.
      destruct (col_hora_inicio x <? col_hora_inicio y); auto.
    + auto.
Qed.

Lemma fold_mais_recente_ge (xs : list Registro) :
  forall x, col_hora_inicio x <= col_hora_inicio (fold_left mais_recente xs x).
Proof.
  induction xs as [|y ys IH]; intros x; simpl; [lia|].
  specialize (IH (mais_recente x y)).
  unfold mais_recente in IH at 1.
  destruct (col_hora_inicio x <? col_hora_inicio y) eqn:E; [|exact IH].
  apply Z.ltb_lt in E. lia.
Qed.

Lemma fold_mais_recente_max (xs : list Registro) :
  forall x r, In r (x :: xs) ->
    col_hora_inicio r <= col_hora_inicio (fold_left mais_recente xs x).
Proof.
  induction xs as [|y ys IH]; intros x r Hin.
  - destruct Hin as [<-|[]]. simpl. lia.
  - simpl. destruct Hin as [<-|[<-|Hin]].
    + pose proof (fold_mais_recente_ge ys (mais_recente x y)) as G.
      unfold mais_recente in G at 1.
      destruct (col_hora_inicio x <? col_hora_inicio y) eqn:E; [|exact G].
      apply Z.ltb_lt in E. lia.
    + pose proof (fold_mais_recente_ge ys (mais_recente x y)) as G.
      unfold mais_recente in G at 1.
      destruct (col_hora_inicio x <? col_hora_inicio y) eqn:E; [exact G|].
      apply Z.ltb_ge in E. lia.
    + apply IH. now right.
Qed.

Lemma limit1_none (l : list Registro) :
  order_by_inicio_desc_limit1 l = None <-> l = [].
Proof. destruct l; simpl; split; congruence. Qed.

Lemma limit1_some (l : list Registro) (r : Registro) :
  order_by_inicio_desc_limit1 l = Some r ->
  In r l /\ forall r', In r' l -> col_hora_inicio r' <= col_hora_inicio r.
Proof.
  destruct l as [|x xs]; simpl; [discriminate|].
  intros [= <-]. split.
  - apply fold_mais_recente_in.
  - intros r' H. now apply fold_mais_recente_max.
Qed.

Lemma limit1_singleton (r : Registro) :
  order_by_inicio_desc_limit1 [r] = Some r.
Proof. reflexivity. Qed.

Lemma aberto_de_spec (v : string) (r : Registro) :
  aberto_de v r = true <-> col_vin r = v /\ col_hora_fim r = None.
Proof.
  unfold aberto_de. rewrite andb_true_iff, String.eqb_eq.
  destruct (col_hora_fim r); simpl; intuition congruence.
Qed.

Lemma abertos_In (db : Tabela) (v : string) (r : Registro) :
  In r (abertos db v) <->
  In r db /\ col_vin r = v /\ col_hora_fim r = None.
Proof. unfold abertos. now rewrite filter_In, aberto_de_spec. Qed.

Lemma abertos_app (db1 db2 : Tabela) (v : string) :
  abertos (db1 ++ db2) v = abertos db1 v ++ abertos db2 v.
Proof. apply filter_app. Qed.

(** After the UPDATE, the open rows are the old ones whose id is not
    the updated one. *)
Lemma abertos_update (db : Tabela) (t : Z) (i v : string) :
  abertos (sql_update_hora_fim db t i) v =
  filter (fun r => negb (col_id r =? i)%string) (abertos db v).
Proof.
  unfold abertos, sql_update_hora_fim.
  induction db as [|r db IH]; simpl; [reflexivity|].
  destruct (col_id r =? i)%string eqn:E.
  - unfold aberto_de at 1. simpl. rewrite andb_false_r.
    destruct (aberto_de v r); simpl; [rewrite E; simpl|]; exact IH.
  - destruct (aberto_de v r); simpl; [rewrite E; simpl|]; now rewrite IH.
Qed.

Lemma update_ids (db : Tabela) (t : Z) (i : string) :
  map col_id (sql_update_hora_fim db t i) = map col_id db.
Proof.
  unfold sql_update_hora_fim. rewrite map_map.
  apply map_ext. intros r. now destruct (col_id r =? i)%string.
Qed.

Lemma update_keeps (db : Tabela) (t : Z) (i : string) (r : Registro) :
  In r db -> col_id r <> i -> In r (sql_update_hora_fim db t i).
Proof.
  intros Hin Hne. unfold sql_update_hora_fim.
  apply in_map_iff. exists r. split; [|exact Hin].
  apply String.eqb_neq in Hne. now rewrite Hne.
Qed.

Lemma update_sets (db : Tabela) (t : Z) (r : Registro) :
  In r db -> In (set_hora_fim t r) (sql_update_hora_fim db t (col_id r)).
Proof.
  intros Hin. unfold sql_update_hora_fim.
  apply in_map_iff. exists r. split; [|exact Hin].
  now rewrite String.eqb_refl.
Qed.

Lemma insert_some (db db' : Tabela) (r : Registro) :
  sql_insert db r = Some db' ->
  db' = db ++ [r] /\ ~ In (col_id r) (map col_id db).
Proof.
  unfold sql_insert.
  destruct (existsb _ db) eqn:E; [discriminate|].
  intros [= <-]. split; [reflexivity|].
  intros Hin. apply in_map_iff in Hin as (x & Hx & Hin).
  assert (existsb (fun x => (col_id x =? col_id r)%string) db = true) as C.
  { apply existsb_exists. exists x. split; [exact Hin|].
    now apply String.eqb_eq. }
  congruence.
Qed.

Lemma insert_fresh (db : Tabela) (r : Registro) :
  ~ In (col_id r) (map col_id db) -> sql_insert db r = Some (db ++ [r]).
Proof.
  intros Hn. unfold sql_insert.
  destruct (existsb _ db) eqn:E; [|reflexivity].
  apply existsb_exists in E as (x & Hin & Hx).
  apply String.eqb_eq in Hx. exfalso. apply Hn.
  rewrite <- Hx. now apply in_map.
Qed.

End SqlFacts.

(* ------------------------------------------------------------------ *)
(** * The two writing operations, case by case *)

Section Operacoes.

Lemma tem_aberto_abertos (db : Tabela) (v : string) :
  tem_aberto db v <-> abertos db v <> [].
Proof.
  split.
  - intros (r & Hr). apply abertos_In in Hr.
    intros E. rewrite E in Hr. exact Hr.
  - intros Hne. destruct (abertos db v) as [|r l] eqn:E; [congruence|].
    exists r. apply abertos_In. rewrite E. now left.
Qed.

Lemma limit1_abertos (db : Tabela) (v : string) (r : Registro) :
  order_by_inicio_desc_limit1 (abertos db v) = Some r ->
  aberto_mais_recente db v r.
Proof.
  intros H. apply limit1_some in H as [Hin Hmax].
  apply abertos_In in Hin as (Hin & Hv & Hf).
  repeat split; try assumption.
  intros r' Hin' Hv' Hf'. apply Hmax. now apply abertos_In.
Qed.

(** [iniciar_reparo] once the VIN has passed [validar_vin]. *)
Lemma iniciar_reparo_eq (db : Tabela) (vin op : string)
    (t sh : option string) (env : Env) :
  vin <> "" ->
  iniciar_reparo db vin op t sh env =
  match order_by_inicio_desc_limit1 (abertos db (strip (upper vin))) with
  | Some r =>
      (db, inl (ReparoEmAberto
                  (minutos_int (agora env - strptime (col_hora_inicio r)))))
  | None =>
      if sqlite_falha env then (db, inl ErroAoIniciar)
      else match sql_insert db (valores_insert vin op t sh env) with
           | Some db' => (db', inr (uuid4 env))
           | None => (db, inl ErroAoIniciar)
           end
  end.
Proof.
  intros Hv. unfold iniciar_reparo, verificar_reparo_aberto.
  rewrite (validar_vin_ok _ Hv), upper_vin_limpo.
  destruct (order_by_inicio_desc_limit1 _); reflexivity.
Qed.

Lemma iniciar_reparo_vin_vazio (db : Tabela) (op : string)
    (t sh : option string) (env : Env) :
  iniciar_reparo db "" op t sh env = (db, inl VinVazio).
Proof. reflexivity. Qed.

Lemma finalizar_reparo_eq (db : Tabela) (vin : string) (now : Z) :
  vin <> "" ->
  finalizar_reparo db vin now =
  match order_by_inicio_desc_limit1 (abertos db (strip (upper vin))) with
  | Some r =>
      (sql_update_hora_fim db (strftime now) (col_id r),
       inr (col_id r,
            strptime (strftime now) - strptime (col_hora_inicio r),
            col_operador_id r))
  | None => (db, inl NenhumReparoAberto)
  end.
Proof.
  intros Hv. unfold finalizar_reparo.
  rewrite (validar_vin_ok _ Hv). reflexivity.
Qed.

(** A successful start appended exactly the VALUES tuple, and the VIN
    had no open row before. *)
Lemma iniciar_reparo_sucesso (db db' : Tabela) (vin op : string)
    (t sh : option string) (env : Env) (rid : string) :
  iniciar_reparo db vin op t sh env = (db', inr rid) ->
  vin <> "" /\ rid = uuid4 env /\
  abertos db (strip (upper vin)) = [] /\
  db' = db ++ [valores_insert vin op t sh env] /\
  ~ In (uuid4 env) (map col_id db).
Proof.
  intros H.
  assert (vin <> "") as Hv.
  { intros ->. rewrite iniciar_reparo_vin_vazio in H. discriminate. }
  rewrite (iniciar_reparo_eq _ _ _ _ _ _ Hv) in H.
  destruct (order_by_inicio_desc_limit1 _) eqn:E; [discriminate|].
  apply limit1_none in E.
  destruct (sqlite_falha env); [discriminate|].
  destruct (sql_insert _ _) eqn:I; [|discriminate].
  apply insert_some in I as [-> Hfresh].
  injection H as <- <-. auto.
Qed.

(** A start that reports an error wrote nothing. *)
Lemma iniciar_reparo_erro (db : Tabela) (vin op : string)
    (t sh : option string) (env : Env) (e : Erro) :
  snd (iniciar_reparo db vin op t sh env) = inl e ->
  fst (iniciar_reparo db vin op t sh env) = db.
Proof.
  unfold iniciar_reparo.
  destruct (validar_vin vin); [reflexivity|].
  destruct (verificar_reparo_aberto db s) as [[[? ?] ?]|]; [reflexivity|].
  destruct (sqlite_falha env); [reflexivity|].
  destruct (sql_insert _ _); simpl; [discriminate|reflexivity].
Qed.

(** The table after a start is the old one, or the old one and one more
    open row whose VIN had none. *)
Lemma iniciar_reparo_tabela (db : Tabela) (vin op : string)
    (t sh : option string) (env : Env) :
  fst (iniciar_reparo db vin op t sh env) = db \/
  (fst (iniciar_reparo db vin op t sh env)
   = db ++ [valores_insert vin op t sh env]
   /\ abertos db (strip (upper vin)) = []
   /\ ~ In (uuid4 env) (map col_id db)).
Proof.
  destruct (iniciar_reparo db vin op t sh env) as [db' [e|rid]] eqn:E.
  - left. pose proof (iniciar_reparo_erro db vin op t sh env e) as H.
    rewrite E in H. now apply H.
  - right. apply iniciar_reparo_sucesso in E as (_ & _ & H1 & H2 & H3).
    simpl. auto.
Qed.

(** The table after a stop is the old one, or the old one with
    [hora_fim] written on the rows that carry the id of an open row. *)
Lemma finalizar_reparo_tabela (db : Tabela) (vin : string) (now : Z) :
  fst (finalizar_reparo db vin now) = db \/
  exists r, aberto_mais_recente db (strip (upper vin)) r /\
            fst (finalizar_reparo db vin now)
            = sql_update_hora_fim db (strftime now) (col_id r).
Proof.
  destruct vin as [|c vin'] eqn:Ev; [now left|].
  rewrite finalizar_reparo_eq by discriminate.
  destruct (order_by_inicio_desc_limit1 _) as [r|] eqn:E; [|now left].
  right. exists r. split; [|reflexivity]. now apply limit1_abertos.
Qed.

End Operacoes.

(* ------------------------------------------------------------------ *)
(** * Invariants of the table *)

Section Invariantes.

Lemma pk_inj (db : Tabela) (a b : Registro) :
  pk_ok db -> In a db -> In b db -> col_id a = col_id b -> a = b.
Proof.
  unfold pk_ok. induction db as [|x db IH]; simpl; [tauto|].
  intros Hnd Ha Hb Hid. inversion Hnd as [|? ? Hnotin Hnd']; subst.
  destruct Ha as [<-|Ha], Hb as [<-|Hb]; auto.
  - exfalso. apply Hnotin. rewrite Hid. now apply in_map.
  - exfalso. apply Hnotin. rewrite <- Hid. now apply in_map.
Qed.

Lemma pk_ok_insert (db : Tabela) (r : Registro) :
  pk_ok db -> ~ In (col_id r) (map col_id db) -> pk_ok (db ++ [r]).
Proof.
  unfold pk_ok. intros Hnd Hfresh. rewrite map_app. simpl.
  apply NoDup_app; try assumption.
  - constructor; [intros []|constructor].
  - intros i Hi [<-|[]]. now apply Hfresh.
Qed.

Lemma executar_pk_ok (db : Tabela) (c : Chamada) :
  pk_ok db -> pk_ok (executar db c).
Proof.
  intros Hpk. destruct c as [v o t s env|v now]; simpl.
  - destruct (iniciar_reparo_tabela db v o t s env) as [->|(-> & _ & Hf)];
      [assumption|].
    now apply pk_ok_insert.
  - destruct (finalizar_reparo_tabela db v now) as [->|(r & _ & ->)];
      [assumption|].
    unfold pk_ok. now rewrite update_ids.
Qed.

Lemma n_abertos_update (db : Tabela) (t : Z) (i v : string) :
  (n_abertos (sql_update_hora_fim db t i) v <= n_abertos db v)%nat.
Proof. unfold n_abertos. rewrite abertos_update. apply filter_length_le. Qed.

Lemma n_abertos_insert (db : Tabela) (r : Registro) (v : string) :
  n_abertos (db ++ [r]) v
  = (n_abertos db v + if aberto_de v r then 1 else 0)%nat.
Proof.
  unfold n_abertos. rewrite abertos_app, length_app. simpl.
  now destruct (aberto_de v r).
Qed.

(** Each call keeps "at most one open repair per VIN". *)
Lemma executar_um_aberto (db : Tabela) (c : Chamada) :
  um_aberto_por_vin db -> um_aberto_por_vin (executar db c).
Proof.
  intros Hinv v'. destruct c as [v o t s env|v now]; simpl.
  - destruct (iniciar_reparo_tabela db v o t s env) as [->|(-> & Hnone & _)];
      [apply Hinv|].
    rewrite n_abertos_insert.
    destruct (aberto_de v' _) eqn:E.
    + apply aberto_de_spec in E as [E _]. simpl in E. subst v'.
      unfold n_abertos. rewrite Hnone. simpl. lia.
    + specialize (Hinv v'). lia.
  - destruct (finalizar_reparo_tabela db v now) as [->|(r & _ & ->)];
      [apply Hinv|].
    pose proof (n_abertos_update db (strftime now) (col_id r) v').
    specialize (Hinv v'). lia.
Qed.

Lemma um_aberto_vazia : um_aberto_por_vin [].
Proof. intros v. unfold n_abertos. simpl. lia. Qed.

Lemma historia_um_aberto (cs : list Chamada) :
  forall db, um_aberto_por_vin db -> um_aberto_por_vin (historia cs db).
Proof.
  induction cs as [|c cs IH]; intros db H; simpl; [exact H|].
  apply IH. now apply executar_um_aberto.
Qed.

Lemma historia_pk_ok (cs : list Chamada) :
  forall db, pk_ok db -> pk_ok (historia cs db).
Proof.
  induction cs as [|c cs IH]; intros db H; simpl; [exact H|].
  apply IH. now apply executar_pk_ok.
Qed.

(** A closed row survives each call unchanged. *)
Lemma executar_fechado (db : Tabela) (c : Chamada) (r : Registro) (t : Z) :
  pk_ok db -> In r db -> col_hora_fim r = Some t -> In r (executar db c).
Proof.
  intros Hpk Hin Hf. destruct c as [v o ti s env|v now]; simpl.
  - destruct (iniciar_reparo_tabela db v o ti s env) as [->|(-> & _)];
      [assumption|].
    apply in_or_app. now left.
  - destruct (finalizar_reparo_tabela db v now)
      as [->|(r0 & (Hin0 & _ & Hf0 & _) & ->)]; [assumption|].
    apply update_keeps; [assumption|].
    intros Hid. apply (pk_inj db r r0 Hpk Hin Hin0) in Hid.
    subst r0. congruence.
Qed.

End Invariantes.

(* ------------------------------------------------------------------ *)
(** * Single open repair per VIN *)

(** C1.  After any history of starts and stops from the empty table, and
    for every VIN, at most one row of that VIN has a NULL [hora_fim]. *)
Theorem historia_um_aberto_por_vin (cs : list Chamada) (v : string) :
  (n_abertos (historia cs []) v <= 1)%nat.
Proof.
  apply (historia_um_aberto cs [] um_aberto_vazia).
Qed.

(* ------------------------------------------------------------------ *)
(** * [hora_fim] is written once *)

(** C7.  In a table that respects its primary key, a row whose [hora_fim]
    is set is still in the table, unchanged, after any further history
    of starts and stops, and every row carrying its id has that same
    [hora_fim]. *)
Theorem hora_fim_escrita_uma_vez (db : Tabela) (cs : list Chamada)
    (r : Registro) (t : Z) :
  pk_ok db -> In r db -> col_hora_fim r = Some t ->
  In r (historia cs db) /\
  forall r', In r' (historia cs db) -> col_id r' = col_id r ->
             col_hora_fim r' = Some t.
Proof.
  intros Hpk Hin Hf.
  assert (In r (historia cs db)) as Hkeep.
  { revert db Hpk Hin. induction cs as [|c cs IH]; intros db Hpk Hin; simpl.
    - exact Hin.
    - apply IH.
      + now apply executar_pk_ok.
      + now apply (executar_fechado db c r t). }
  split; [exact Hkeep|].
  intros r' Hin' Hid.
  assert (r' = r) as ->; [|exact Hf].
  apply (pk_inj (historia cs db)); auto using historia_pk_ok.
Qed.

(* ------------------------------------------------------------------ *)
(** * Errors of a start leave the table alone *)

(** C9.  When [iniciar_reparo] returns an error (empty VIN, a repair
    already open, or an error of the storage layer on the INSERT), the
    table after the call is the table before it. *)
Theorem iniciar_reparo_erro_nao_escreve (db : Tabela) (vin op : string)
    (t sh : option string) (env : Env) (e : Erro) :
  snd (iniciar_reparo db vin op t sh env) = inl e ->
  fst (iniciar_reparo db vin op t sh env) = db.
Proof. apply iniciar_reparo_erro. Qed.

(* ------------------------------------------------------------------ *)
(** * Start and stop against the open row *)

Section AbertoUnico.

(** Right after a successful start the new row is the only open row of
    its VIN. *)
Lemma abertos_apos_iniciar (db db' : Tabela) (vin op : string)
    (t sh : option string) (env : Env) (rid : string) :
  iniciar_reparo db vin op t sh env = (db', inr rid) ->
  abertos db' (strip (upper vin)) = [valores_insert vin op t sh env].
Proof.
  intros H. apply iniciar_reparo_sucesso in H as (_ & _ & Hnone & -> & _).
  rewrite abertos_app, Hnone. simpl.
  unfold aberto_de. simpl. now rewrite String.eqb_refl.
Qed.

(** With at most one open row per VIN, a successful stop leaves the VIN
    without open rows. *)
Lemma abertos_apos_finalizar (db db' : Tabela) (vin : string) (now : Z)
    (res : string * Z * string) :
  (n_abertos db (strip (upper vin)) <= 1)%nat ->
  finalizar_reparo db vin now = (db', inr res) ->
  abertos db' (strip (upper vin)) = [].
Proof.
  intros Hone H.
  assert (vin <> "") as Hv by (intros ->; discriminate H).
  rewrite (finalizar_reparo_eq _ _ _ Hv) in H.
  destruct (order_by_inicio_desc_limit1 _) as [r|] eqn:E; [|discriminate].
  injection H as <- _.
  rewrite abertos_update.
  apply limit1_some in E as [Hin _].
  unfold n_abertos in Hone.
  destruct (abertos db (strip (upper vin))) as [|x [|y l]]; simpl in *.
  - contradiction.
  - destruct Hin as [->|[]]. now rewrite String.eqb_refl.
  - lia.
Qed.

End AbertoUnico.

(** C2.  For a non-empty VIN argument whose normalized form has an open
    row, [iniciar_reparo] writes nothing and returns the "repair already
    open" error carrying the whole minutes, truncated, between now and
    the [hora_inicio] of the open row (the latest one, should there be
    several).  In particular a start for the same normalized VIN right
    after a successful start fails this way. *)
Theorem iniciar_reparo_ja_aberto (db : Tabela) (vin op : string)
    (t sh : option string) (env : Env) :
  vin <> "" ->
  (tem_aberto db (strip (upper vin)) ->
   exists r, aberto_mais_recente db (strip (upper vin)) r /\
     iniciar_reparo db vin op t sh env =
     (db, inl (ReparoEmAberto
                 (Z.quot (agora env - col_hora_inicio r * 1000000) 60000000))))
  /\
  (forall db0 vin0 op0 t0 sh0 env0 rid,
     iniciar_reparo db0 vin0 op0 t0 sh0 env0 = (db, inr rid) ->
     strip (upper vin0) = strip (upper vin) ->
     iniciar_reparo db vin op t sh env =
     (db, inl (ReparoEmAberto
                 (Z.quot (agora env - (agora env0 / 1000000) * 1000000)
                         60000000)))).
Proof.
  intros Hv. rewrite (iniciar_reparo_eq _ _ _ _ _ _ Hv). split.
  - intros Hop. apply tem_aberto_abertos in Hop.
    destruct (order_by_inicio_desc_limit1 _) as [r|] eqn:E.
    + exists r. split; [now apply limit1_abertos|reflexivity].
    + apply limit1_none in E. contradiction.
  - intros db0 vin0 op0 t0 sh0 env0 rid H0 Hn.
    apply abertos_apos_iniciar in H0. rewrite Hn in H0. rewrite H0.
    reflexivity.
Qed.

(** C3.  For a non-empty VIN argument: when no row of the normalized VIN
    is open (no row at all, or closed rows only), [finalizar_reparo]
    returns the "no open repair" error and the table is unchanged; and
    when the table is the outcome of a successful stop of that VIN on a
    table with at most one open repair per VIN, a further stop returns
    that same error. *)
Theorem finalizar_reparo_sem_aberto (db : Tabela) (vin : string) (now : Z) :
  vin <> "" ->
  ((forall r, In r db -> col_vin r = strip (upper vin) ->
              col_hora_fim r <> None) ->
   finalizar_reparo db vin now = (db, inl NenhumReparoAberto))
  /\
  (forall db0 now0 res,
     um_aberto_por_vin db0 ->
     finalizar_reparo db0 vin now0 = (db, inr res) ->
     finalizar_reparo db vin now = (db, inl NenhumReparoAberto)).
Proof.
  intros Hv. rewrite (finalizar_reparo_eq _ _ _ Hv). split.
  - intros Hclosed.
    destruct (order_by_inicio_desc_limit1 _) as [r|] eqn:E; [|reflexivity].
    apply limit1_abertos in E as (Hin & Hvin & Hf & _).
    exfalso. now apply (Hclosed r).
  - intros db0 now0 res Hinv H0.
    apply abertos_apos_finalizar in H0; [|apply Hinv].
    now rewrite H0.
Qed.

(** C4.  For a non-empty VIN argument whose normalized form has an open
    row, [finalizar_reparo] picks an open row of that VIN with the
    greatest [hora_inicio] and returns its id, the difference of the two
    stored times and its stored [operador_id]; the table it leaves is the
    old one with [hora_fim = now] (to the second) on the rows of that id
    and nothing else changed, so the picked row is in it with that
    [hora_fim], every row of its id has that [hora_fim], and under the
    primary key every other row is kept.  When the table comes from a
    successful start of that VIN, the id is the one the start returned,
    the operator is the one stored in the row the start wrote, which is
    in upper case: for a start's operator text of code points below 128,
    that text stripped and in upper case. *)
Theorem finalizar_reparo_fecha_mais_recente (db : Tabela) (vin : string)
    (now : Z) :
  vin <> "" ->
  (tem_aberto db (strip (upper vin)) ->
   exists r, aberto_mais_recente db (strip (upper vin)) r /\
     snd (finalizar_reparo db vin now) =
     inr (col_id r,
          strptime (strftime now) - strptime (col_hora_inicio r),
          col_operador_id r) /\
     fst (finalizar_reparo db vin now) =
     map (fun x =>
            if (col_id x =? col_id r)%string
            then mkRegistro (col_id x) (col_vin x) (col_operador_id x)
                   (col_tipo_retrabalho x) (col_shop x) (col_hora_inicio x)
                   (Some (strftime now))
            else x) db /\
     In (mkRegistro (col_id r) (col_vin r) (col_operador_id r)
           (col_tipo_retrabalho r) (col_shop r) (col_hora_inicio r)
           (Some (strftime now)))
        (fst (finalizar_reparo db vin now)) /\
     (forall x, In x (fst (finalizar_reparo db vin now)) ->
                col_id x = col_id r -> col_hora_fim x = Some (strftime now)) /\
     (pk_ok db ->
      forall x, In x db -> x <> r -> In x (fst (finalizar_reparo db vin now))))
  /\
  (forall db0 vin0 op t sh env rid,
     iniciar_reparo db0 vin0 op t sh env = (db, inr rid) ->
     strip (upper vin0) = strip (upper vin) ->
     exists linha,
       In linha db /\ col_id linha = rid /\ col_hora_fim linha = None /\
       col_hora_inicio linha = strftime (agora env) /\
       snd (finalizar_reparo db vin now) =
       inr (rid,
            strptime (strftime now) - strptime (strftime (agora env)),
            col_operador_id linha) /\
       upper (col_operador_id linha) = col_operador_id linha /\
       (texto_ascii op = true -> col_operador_id linha = upper (strip op)) /\
       In (mkRegistro rid (col_vin linha) (col_operador_id linha)
             (col_tipo_retrabalho linha) (col_shop linha)
             (strftime (agora env)) (Some (strftime now)))
          (fst (finalizar_reparo db vin now))).
Proof.
  intros Hv. rewrite (finalizar_reparo_eq _ _ _ Hv). split.
  - intros Hop. apply tem_aberto_abertos in Hop.
    destruct (order_by_inicio_desc_limit1 _) as [r|] eqn:E.
    + exists r. pose proof (limit1_abertos _ _ _ E) as Hr.
      split; [exact Hr|]. split; [reflexivity|].
      split; [reflexivity|].
      destruct Hr as (Hin & _). simpl. split; [|split].
      * apply (update_sets db (strftime now) r Hin).
      * intros x Hx Hid. unfold sql_update_hora_fim in Hx.
        apply in_map_iff in Hx as (y & Hy & _).
        destruct (col_id y =? col_id r)%string eqn:Ey; subst x.
        -- reflexivity.
        -- apply String.eqb_neq in Ey. contradiction.
      * intros Hpk x Hx Hne. apply update_keeps; [exact Hx|].
        intros Hid. apply Hne. now apply (pk_inj db).
    + apply limit1_none in E. contradiction.
  - intros db0 vin0 op t sh env rid H0 Hn.
    pose proof (iniciar_reparo_sucesso _ _ _ _ _ _ _ _ H0)
      as (_ & -> & _ & Hdb & _).
    apply abertos_apos_iniciar in H0. rewrite Hn in H0. rewrite H0.
    exists (valores_insert vin0 op t sh env). simpl.
    split; [rewrite Hdb; apply in_or_app; right; now left|].
    split; [reflexivity|]. split; [reflexivity|]. split; [reflexivity|].
    split; [reflexivity|].
    split; [apply upper_idem|]. split; [reflexivity|].
    assert (In (valores_insert vin0 op t sh env) db) as Hin
      by (rewrite Hdb; apply in_or_app; right; now left).
    apply (update_sets db (strftime now) _ Hin).
Qed.

(* ------------------------------------------------------------------ *)
(** * What a start checks *)

(** C5 (as amended).  A start whose VIN argument is the empty string
    returns the "VIN must not be empty" error and writes nothing,
    whatever the operator; the operator is checked by the form only: a
    submit with a non-empty VIN and an empty operator is refused there
    without a write. *)
Theorem iniciar_reparo_vin_vazio_rejeitado (db : Tabela) (env : Env) :
  (forall op t sh, iniciar_reparo db "" op t sh env = (db, inl VinVazio))
  /\
  (forall vin_start tipo shop,
     vin_start <> "" ->
     form_iniciar_reparo db vin_start "" tipo shop env
     = (db, OperadorObrigatorio)).
Proof.
  split.
  - intros. reflexivity.
  - intros vin_start tipo shop Hv. unfold form_iniciar_reparo.
    apply truthy_true in Hv. now rewrite Hv.
Qed.

(** C10.  For a non-empty VIN argument without open repair, a fresh id
    and a working storage layer, a start without [tipo_retrabalho]
    succeeds when [shop] is [None] or empty, and the row it appends has a
    NULL [shop]; any non-empty [shop] text is stored as it is; only the
    form refuses an empty [shop]. *)
Theorem iniciar_reparo_shop_nao_exigido (db : Tabela) (vin op : string)
    (env : Env) :
  vin <> "" ->
  abertos db (strip (upper vin)) = [] ->
  ~ In (uuid4 env) (map col_id db) ->
  sqlite_falha env = false ->
  (forall sh, sh = None \/ sh = Some "" ->
     iniciar_reparo db vin op None sh env =
     (db ++ [mkRegistro (uuid4 env) (strip (upper vin)) (upper (strip op))
                        None None (strftime (agora env)) None],
      inr (uuid4 env)))
  /\
  (forall s, s <> "" ->
     iniciar_reparo db vin op None (Some s) env =
     (db ++ [mkRegistro (uuid4 env) (strip (upper vin)) (upper (strip op))
                        None (Some s) (strftime (agora env)) None],
      inr (uuid4 env)))
  /\
  (forall tipo, op <> "" ->
     form_iniciar_reparo db vin op tipo "" env = (db, ShopObrigatorio)).
Proof.
  intros Hv Hnone Hfresh Hok.
  assert (forall sh, iniciar_reparo db vin op None sh env =
            (db ++ [valores_insert vin op None sh env], inr (uuid4 env))) as G.
  { intros sh. rewrite (iniciar_reparo_eq _ _ _ _ _ _ Hv), Hnone, Hok. simpl.
    now rewrite insert_fresh. }
  repeat split.
  - intros sh [->| ->]; apply G.
  - intros s Hs. rewrite G. unfold valores_insert. simpl.
    apply truthy_true in Hs. now rewrite Hs.
  - intros tipo Hop. unfold form_iniciar_reparo.
    apply truthy_true in Hv. apply truthy_true in Hop.
    now rewrite Hv, Hop.
Qed.

(* ------------------------------------------------------------------ *)
(** * The query and the MTTR *)

Section Consulta.

Lemma inserir_desc_perm (r : Registro) (l : list Registro) :
  Permutation (inserir_desc r l) (r :: l).
Proof.
  induction l as [|x t IH]; simpl; [apply Permutation_refl|].
  destruct (col_hora_inicio r <? col_hora_inicio x).
  - eapply perm_trans; [apply perm_skip, IH | apply perm_swap].
  - apply Permutation_refl.
Qed.

Lemma order_by_inicio_desc_perm (l : list Registro) :
  Permutation (order_by_inicio_desc l) l.
Proof.
  induction l as [|x t IH]; simpl; [constructor|].
  eapply perm_trans; [apply inserir_desc_perm | now apply perm_skip].
Qed.

Lemma get_registros_eq (db : Tabela) (fo fv : option string)
    (di df : option Z) (ac : bool) :
  get_registros db fo fv di df ac =
  map processar
      (order_by_inicio_desc (filter (where_registros fo fv di df ac) db)).
Proof.
  unfold get_registros. now destruct (order_by_inicio_desc _).
Qed.

(** The rows returned under a VIN filter alone: the filter is put in
    upper case and compared as it is; an empty filter selects every row. *)
Lemma get_registros_filtro_vin (db : Tabela) (f : string) (l : Linha) :
  In l (get_registros db None (Some f) None None false) <->
  exists r, l = processar r /\ In r db /\ (f = "" \/ col_vin r = upper f).
Proof.
  rewrite get_registros_eq, in_map_iff.
  split.
  - intros (r & <- & Hin). exists r. split; [reflexivity|].
    apply (Permutation_in _ (order_by_inicio_desc_perm _)) in Hin.
    apply filter_In in Hin as [Hin Hw]. split; [exact Hin|].
    unfold where_registros, cond_upper in Hw. simpl in Hw.
    destruct f as [|c f']; [now left|right]. simpl in Hw.
    rewrite !andb_true_r in Hw. now apply String.eqb_eq in Hw.
  - intros (r & -> & Hin & Hf). exists r. split; [reflexivity|].
    apply (Permutation_in _ (Permutation_sym (order_by_inicio_desc_perm _))).
    apply filter_In. split; [exact Hin|].
    unfold where_registros, cond_upper. simpl.
    destruct f as [|c f']; [reflexivity|]. simpl.
    destruct Hf as [Hf|Hf]; [discriminate|].
    rewrite !andb_true_r. now apply String.eqb_eq.
Qed.

Lemma tempo_medio_eq (df : list Linha) :
  tempo_medio df =
  match dropna (map duracao_minutos df) with
  | [] => None
  | _ => Some (mean (dropna (map duracao_minutos df)))
  end.
Proof. now destruct df. Qed.

Lemma calc_duracao_minutos_Qeq (r : Registro) (fim : Z) :
  col_hora_fim r = Some fim ->
  exists q, calc_duracao_minutos r = Some q /\
            (q == duracao_em_minutos (col_hora_inicio r) fim)%Q.
Proof.
  intros H. unfold calc_duracao_minutos. rewrite H.
  eexists. split; [reflexivity|].
  unfold duracao_em_minutos, strptime.
  replace (fim * 1000000 - col_hora_inicio r * 1000000)
    with ((fim - col_hora_inicio r) * 1000000) by lia.
  rewrite inject_Z_mult. field.
Qed.

Lemma dropna_processar (l : list Registro) :
  Forall2 Qeq (dropna (map duracao_minutos (map processar l)))
              (duracoes_fechados l).
Proof.
  induction l as [|r t IH]; simpl; [constructor|].
  destruct (col_hora_fim r) as [fim|] eqn:E.
  - destruct (calc_duracao_minutos_Qeq r fim E) as (q & -> & Hq).
    simpl. now constructor.
  - unfold calc_duracao_minutos. rewrite E. simpl. exact IH.
Qed.

Lemma soma_Forall2 (l1 l2 : list Q) :
  Forall2 Qeq l1 l2 ->
  List.length l1 = List.length l2 /\ (soma l1 == soma l2)%Q.
Proof.
  induction 1 as [|x y l1 l2 Hxy _ [IHl IHs]]; simpl.
  - split; reflexivity.
  - split; [now rewrite IHl|]. now rewrite Hxy, IHs.
Qed.

Lemma soma_Permutation (l1 l2 : list Q) :
  Permutation l1 l2 ->
  List.length l1 = List.length l2 /\ (soma l1 == soma l2)%Q.
Proof.
  induction 1 as [|x l1 l2 _ [IHl IHs]|x y l
                  |l1 l2 l3 _ [IHl1 IHs1] _ [IHl2 IHs2]]; simpl.
  - split; reflexivity.
  - split; [now rewrite IHl|]. now rewrite IHs.
  - split; [reflexivity|]. ring.
  - split; [congruence|]. now rewrite IHs1.
Qed.

Lemma duracoes_fechados_Permutation (l1 l2 : list Registro) :
  Permutation l1 l2 ->
  Permutation (duracoes_fechados l1) (duracoes_fechados l2).
Proof.
  induction 1 as [|x l1 l2 _ IH|x y l|l1 l2 l3 _ IH1 _ IH2]; simpl.
  - constructor.
  - destruct (col_hora_fim x); [now constructor|exact IH].
  - destruct (col_hora_fim x), (col_hora_fim y);
      try apply Permutation_refl. apply perm_swap.
  - eapply perm_trans; eassumption.
Qed.

(** Two samples of the same size and sum have the same mean, or are both
    empty. *)
Lemma mesma_media_amostras (l1 l2 : list Q) :
  List.length l1 = List.length l2 -> (soma l1 == soma l2)%Q ->
  mesma_media
    (match l1 with [] => None | _ => Some (mean l1) end)
    (mttr_spec_de l2).
Proof.
  intros Hl Hs. unfold mttr_spec_de.
  destruct l1 as [|x1 t1], l2 as [|x2 t2]; try discriminate; [exact I|].
  unfold mesma_media, mean. rewrite Hl, Hs. reflexivity.
Qed.

End Consulta.

(** C6.  The VIN filter of [get_registros] is put in upper case but not
    stripped: with a row stored under "ABC123", the filter "abc123" finds
    it and the filter " abc123", whose normalized form is "ABC123" too,
    finds nothing. *)
Theorem get_registros_filtro_vin_sem_strip :
  strip (upper " abc123") = "ABC123" /\
  get_registros tabela_ex_fechada None (Some "abc123") None None false
  = [processar linha_ex_fechada] /\
  get_registros tabela_ex_fechada None (Some " abc123") None None false = [].
Proof. repeat split. Qed.

(** C8.  The value of the MTTR metric over the frame returned by
    [get_registros] is the mean, in minutes, of [hora_fim - hora_inicio]
    over the closed rows among the rows that pass the filters (and is
    absent exactly when there is none); over three closed repairs of 10,
    20 and 30 minutes it is 20. *)
Theorem tempo_medio_e_media_dos_fechados (db : Tabela) (fo fv : option string)
    (di df : option Z) (ac : bool) :
  mesma_media
    (tempo_medio (get_registros db fo fv di df ac))
    (mttr_spec (filter (where_registros fo fv di df ac) db))
  /\
  mesma_media
    (tempo_medio (get_registros tabela_ex_mttr None None None None true))
    (Some (inject_Z 20)).
Proof.
  split.
  - rewrite tempo_medio_eq, get_registros_eq. unfold mttr_spec.
    set (F := filter _ db).
    destruct (soma_Forall2 _ _ (dropna_processar (order_by_inicio_desc F)))
      as [Hl1 Hs1].
    destruct (soma_Permutation _ _
                (duracoes_fechados_Permutation _ _
                   (order_by_inicio_desc_perm F))) as [Hl2 Hs2].
    apply mesma_media_amostras.
    + congruence.
    + now rewrite Hs1.
  - vm_compute. reflexivity.
Qed.

(* ------------------------------------------------------------------ *)
(** * Concrete runs *)

(** A start with an empty operator and a valid VIN is accepted: the row
    is written with an empty [operador_id]. *)
Lemma iniciar_reparo_aceita_operador_vazio :
  iniciar_reparo [] "ABC123" "" None (Some "BS") env_ex1 =
  ([mkRegistro "id-1" "ABC123" "" None (Some "BS") 90 None], inr "id-1").
Proof. reflexivity. Qed.

(** Start of "abc123" while the row of " abc123 " is open: refused, 20
    whole minutes after 00:01:30. *)
Lemma iniciar_reparo_ja_aberto_witness :
  "abc123" <> "" /\
  tem_aberto tabela_ex (strip (upper "abc123")) /\
  iniciar_reparo [] " abc123 " "op1" (Some "rework") (Some "BS") env_ex1
  = (tabela_ex, inr "id-1") /\
  (exists r, aberto_mais_recente tabela_ex (strip (upper "abc123")) r /\
     iniciar_reparo tabela_ex "abc123" "op2" None None env_ex2 =
     (tabela_ex,
      inl (ReparoEmAberto
             (Z.quot (agora env_ex2 - col_hora_inicio r * 1000000) 60000000))))
  /\
  iniciar_reparo tabela_ex "abc123" "op2" None None env_ex2
  = (tabela_ex, inl (ReparoEmAberto 20)).
Proof.
  assert (Hv : "abc123" <> "") by discriminate.
  assert (Ho : tem_aberto tabela_ex (strip (upper "abc123"))).
  { exists linha_ex. split; [now left | split; reflexivity]. }
  assert (H0 : iniciar_reparo [] " abc123 " "op1" (Some "rework") (Some "BS")
                 env_ex1 = (tabela_ex, inr "id-1")) by reflexivity.
  destruct (iniciar_reparo_ja_aberto tabela_ex "abc123" "op2" None None
              env_ex2 Hv) as [H1 H2].
  split; [exact Hv|]. split; [exact Ho|]. split; [exact H0|].
  split; [exact (H1 Ho)|].
  exact (H2 [] " abc123 " "op1" (Some "rework") (Some "BS") env_ex1 "id-1"
            H0 eq_refl).
Defined.

(** Stop of "abc123" on the closed table, and again right after the stop
    that closed it. *)
Lemma finalizar_reparo_sem_aberto_witness :
  "abc123" <> "" /\
  (forall r, In r tabela_ex_fechada -> col_vin r = strip (upper "abc123") ->
             col_hora_fim r <> None) /\
  um_aberto_por_vin tabela_ex /\
  finalizar_reparo tabela_ex "abc123" 1290500000
  = (tabela_ex_fechada, inr ("id-1", 1200000000, "OP1")) /\
  finalizar_reparo tabela_ex_fechada "abc123" 2000000000
  = (tabela_ex_fechada, inl NenhumReparoAberto).
Proof.
  assert (Hv : "abc123" <> "") by discriminate.
  assert (Hc : forall r, In r tabela_ex_fechada ->
                 col_vin r = strip (upper "abc123") -> col_hora_fim r <> None).
  { intros r [<-|[]] _. discriminate. }
  assert (Hu : um_aberto_por_vin tabela_ex).
  { intros v. unfold n_abertos, abertos, tabela_ex. simpl.
    destruct (aberto_de v linha_ex); simpl; lia. }
  assert (H0 : finalizar_reparo tabela_ex "abc123" 1290500000
               = (tabela_ex_fechada, inr ("id-1", 1200000000, "OP1")))
    by reflexivity.
  destruct (finalizar_reparo_sem_aberto tabela_ex_fechada "abc123" 2000000000
              Hv) as [H1 H2].
  split; [exact Hv|]. split; [exact Hc|]. split; [exact Hu|].
  split; [exact H0|].
  exact (H2 tabela_ex 1290500000 ("id-1", 1200000000, "OP1") Hu H0).
Defined.

(** Stop of "abc123" at 00:21:30.5 on the table of the sample start:
    id "id-1", 20 minutes, operator "OP1", and the row closed at 00:21:30. *)
Lemma finalizar_reparo_fecha_mais_recente_witness :
  "abc123" <> "" /\
  tem_aberto tabela_ex (strip (upper "abc123")) /\
  texto_ascii "op1" = true /\
  (exists r, aberto_mais_recente tabela_ex (strip (upper "abc123")) r /\
     snd (finalizar_reparo tabela_ex "abc123" 1290500000) =
     inr (col_id r,
          strptime (strftime 1290500000) - strptime (col_hora_inicio r),
          col_operador_id r) /\
     forall x, In x (fst (finalizar_reparo tabela_ex "abc123" 1290500000)) ->
               col_id x = col_id r -> col_hora_fim x = Some 1290) /\
  (exists linha,
     In linha tabela_ex /\ col_id linha = "id-1" /\
     snd (finalizar_reparo tabela_ex "abc123" 1290500000)
     = inr ("id-1", 1200000000, col_operador_id linha) /\
     col_operador_id linha = "OP1") /\
  fst (finalizar_reparo tabela_ex "abc123" 1290500000) = tabela_ex_fechada.
Proof.
  assert (Hv : "abc123" <> "") by discriminate.
  assert (Ho : tem_aberto tabela_ex (strip (upper "abc123"))).
  { exists linha_ex. split; [now left | split; reflexivity]. }
  assert (Ha : texto_ascii "op1" = true) by reflexivity.
  destruct (finalizar_reparo_fecha_mais_recente tabela_ex "abc123" 1290500000
              Hv) as [H1 H2].
  split; [exact Hv|]. split; [exact Ho|]. split; [exact Ha|].
  split; [|split].
  - destruct (H1 Ho) as (r & Hr & Hres & _ & _ & Hfim & _).
    exists r. split; [exact Hr|]. split; [exact Hres|exact Hfim].
  - destruct (H2 [] " abc123 " "op1" (Some "rework") (Some "BS") env_ex1
                "id-1" eq_refl eq_refl)
      as (linha & Hin & Hid & _ & _ & Hres & _ & Hop & _).
    exists linha. split; [exact Hin|]. split; [exact Hid|].
    split; [exact Hres|exact (Hop Ha)].
  - reflexivity.
Defined.

(** The form refuses a submit without operator. *)
Lemma iniciar_reparo_vin_vazio_rejeitado_witness :
  "abc123" <> "" /\
  iniciar_reparo tabela_ex "" "op1" None (Some "BS") env_ex2
  = (tabela_ex, inl VinVazio) /\
  form_iniciar_reparo tabela_ex "abc123" "" "" "BS" env_ex2
  = (tabela_ex, OperadorObrigatorio).
Proof.
  assert (Hv : "abc123" <> "") by discriminate.
  destruct (iniciar_reparo_vin_vazio_rejeitado tabela_ex env_ex2) as [H1 H2].
  split; [exact Hv|]. split.
  - exact (H1 "op1" None (Some "BS")).
  - exact (H2 "abc123" "" "BS" Hv).
Defined.

(** A closed row after a further start and stop of its VIN. *)
Lemma hora_fim_escrita_uma_vez_witness :
  pk_ok tabela_ex_fechada /\
  In linha_ex_fechada tabela_ex_fechada /\
  col_hora_fim linha_ex_fechada = Some 1290 /\
  In linha_ex_fechada
     (historia [ChIniciar "abc123" "op2" None (Some "PS") env_ex2;
                ChFinalizar "ABC123" 3000000000] tabela_ex_fechada).
Proof.
  assert (Hpk : pk_ok tabela_ex_fechada).
  { unfold pk_ok. simpl. constructor; [simpl; tauto | constructor]. }
  assert (Hin : In linha_ex_fechada tabela_ex_fechada) by (now left).
  split; [exact Hpk|]. split; [exact Hin|]. split; [reflexivity|].
  exact (proj1 (hora_fim_escrita_uma_vez tabela_ex_fechada
                  [ChIniciar "abc123" "op2" None (Some "PS") env_ex2;
                   ChFinalizar "ABC123" 3000000000]
                  linha_ex_fechada 1290 Hpk Hin eq_refl)).
Defined.

(** The refused start of the sample leaves the table as it was. *)
Lemma iniciar_reparo_erro_nao_escreve_witness :
  snd (iniciar_reparo tabela_ex "abc123" "op2" None None env_ex2)
  = inl (ReparoEmAberto 20) /\
  fst (iniciar_reparo tabela_ex "abc123" "op2" None None env_ex2) = tabela_ex.
Proof.
  split; [reflexivity|].
  exact (iniciar_reparo_erro_nao_escreve tabela_ex "abc123" "op2" None None
           env_ex2 (ReparoEmAberto 20) eq_refl).
Defined.

(** Start of "abc123" on the empty table with an empty shop. *)
Lemma iniciar_reparo_shop_nao_exigido_witness :
  "abc123" <> "" /\
  abertos [] (strip (upper "abc123")) = [] /\
  ~ In (uuid4 env_ex1) (map col_id []) /\
  sqlite_falha env_ex1 = false /\
  iniciar_reparo [] "abc123" "op1" None (Some "") env_ex1 =
  ([mkRegistro "id-1" "ABC123" "OP1" None None 90 None], inr "id-1") /\
  iniciar_reparo [] "abc123" "op1" None (Some "XX") env_ex1 =
  ([mkRegistro "id-1" "ABC123" "OP1" None (Some "XX") 90 None], inr "id-1") /\
  form_iniciar_reparo [] "abc123" "op1" "" "" env_ex1 = ([], ShopObrigatorio).
Proof.
  assert (Hv : "abc123" <> "") by discriminate.
  assert (Hf : ~ In (uuid4 env_ex1) (map col_id [])) by (simpl; tauto).
  assert (Hop : "op1" <> "") by discriminate.
  assert (Hxx : "XX" <> "") by discriminate.
  destruct (iniciar_reparo_shop_nao_exigido [] "abc123" "op1" env_ex1
              Hv eq_refl Hf eq_refl) as (H1 & H2 & H3).
  split; [exact Hv|]. split; [reflexivity|]. split; [exact Hf|].
  split; [reflexivity|]. split; [|split].
  - exact (H1 (Some "") (or_intror eq_refl)).
  - exact (H2 "XX" Hxx).
  - exact (H3 "" Hop).
Defined.

(** A VIN argument made of blanks passes [validar_vin], which tests for
    emptiness before it strips: the row is stored under the empty VIN. *)
Lemma iniciar_reparo_vin_so_espacos :
  iniciar_reparo [] "   " "op1" None (Some "BS") env_ex1 =
  ([mkRegistro "id-1" "" "OP1" None (Some "BS") 90 None], inr "id-1").
Proof. reflexivity. Qed.

(* ------------------------------------------------------------------ *)
(** * More on the string functions *)

Section Normalizacao.

Lemma lstrip_cabeca (s : string) (c : ascii) (t : string) :
  lstrip s = String c t -> isspace c = false.
Proof.
  induction s as [|a s IH]; simpl; [discriminate|].
  destruct (isspace a) eqn:E; [exact IH|].
  intros [= <- _]. exact E.
Qed.

Lemma rstrip_cons (c : ascii) (t : string) :
  isspace c = false -> rstrip (String c t) = String c (rstrip t).
Proof. intros E. simpl. rewrite E. now destruct (rstrip t). Qed.

Lemma rstrip_idem (s : string) : rstrip (rstrip s) = rstrip s.
Proof.
  induction s as [|c t IH]; simpl; [reflexivity|].
  destruct (rstrip t) as [|c' r] eqn:E.
  - destruct (isspace c) eqn:Ec; simpl; [reflexivity|now rewrite Ec].
  - change (rstrip (String c (String c' r))) with
      (match rstrip (String c' r) with
       | EmptyString => if isspace c then EmptyString else String c EmptyString
       | String a b => String c (String a b)
       end).
    now rewrite IH.
Qed.

Lemma lstrip_strip (s : string) : lstrip (strip s) = strip s.
Proof.
  unfold strip. destruct (lstrip s) as [|c t] eqn:E; [reflexivity|].
  pose proof (lstrip_cabeca _ _ _ E) as Hc.
  rewrite (rstrip_cons _ _ Hc). simpl. now rewrite Hc.
Qed.

Lemma strip_idem (s : string) : strip (strip s) = strip s.
Proof.
  unfold strip at 1. rewrite lstrip_strip. unfold strip. apply rstrip_idem.
Qed.

(** The first character of a stripped text is not a blank. *)
Lemma strip_cabeca (s : string) (c : ascii) (t : string) :
  strip s = String c t -> isspace c = false.
Proof.
  intros H. apply (lstrip_cabeca (strip s) c t). now rewrite lstrip_strip.
Qed.

Lemma normalizar_idem (v : string) :
  strip (upper (strip (upper v))) = strip (upper v).
Proof. now rewrite upper_strip, upper_idem, strip_idem. Qed.

Lemma truthy_upper (s : string) : truthy (upper s) = truthy s.
Proof. now destruct s. Qed.

Lemma upper_vazio (s : string) : upper s = "" <-> s = "".
Proof. destruct s; simpl; split; congruence. Qed.

End Normalizacao.

(* ------------------------------------------------------------------ *)
(** * More on the query *)

Section ConsultaOrdem.

Lemma inserir_desc_In (r x : Registro) (l : list Registro) :
  In x (inserir_desc r l) <-> x = r \/ In x l.
Proof.
  split; intros H.
  - apply (Permutation_in _ (inserir_desc_perm r l)) in H.
    destruct H as [<-|H]; auto.
  - apply (Permutation_in _ (Permutation_sym (inserir_desc_perm r l))).
    destruct H as [->|H]; [now left|now right].
Qed.

Lemma inserir_desc_sorted (r : Registro) (l : list Registro) :
  StronglySorted inicio_desc l -> StronglySorted inicio_desc (inserir_desc r l).
Proof.
  induction 1 as [|x t Hs IH Hall]; simpl.
  - constructor; constructor.
  - destruct (col_hora_inicio r <? col_hora_inicio x) eqn:E.
    + apply Z.ltb_lt in E. constructor; [exact IH|].
      apply Forall_forall. intros y Hy.
      apply inserir_desc_In in Hy as [->|Hy].
      * unfold inicio_desc. lia.
      * now apply (proj1 (Forall_forall _ _) Hall).
    + apply Z.ltb_ge in E. constructor.
      * now constructor.
      * constructor; [unfold inicio_desc; lia|].
        apply Forall_forall. intros y Hy.
        pose proof (proj1 (Forall_forall _ _) Hall y Hy) as G.
        unfold inicio_desc in *. lia.
Qed.

Lemma order_by_inicio_desc_sorted (l : list Registro) :
  StronglySorted inicio_desc (order_by_inicio_desc l).
Proof.
  induction l as [|x t IH]; simpl; [constructor|].
  now apply inserir_desc_sorted.
Qed.

Lemma StronglySorted_map {A B} (f : A -> B) (R : B -> B -> Prop)
    (l : list A) :
  StronglySorted (fun a b => R (f a) (f b)) l -> StronglySorted R (map f l).
Proof.
  induction 1 as [|x t Hs IH Hall]; simpl; constructor; [exact IH|].
  apply Forall_forall. intros y Hy.
  apply in_map_iff in Hy as (z & <- & Hz).
  now apply (proj1 (Forall_forall _ _) Hall).
Qed.

Lemma cond_upper_spec (filtro : option string) (col : string) :
  cond_upper filtro col = true <->
  forall f, filtro = Some f -> f <> "" -> col = upper f.
Proof.
  unfold cond_upper. destruct filtro as [f|].
  - destruct f as [|c f']; simpl.
    + split; [intros _ f [= <-] H; congruence|auto].
    + rewrite String.eqb_eq. split.
      * intros -> f [= <-] _. reflexivity.
      * intros H. apply (H (String c f')); [reflexivity|discriminate].
  - split; [discriminate|auto].
Qed.

Lemma where_registros_spec (fo fv : option string) (di df : option Z)
    (ac : bool) (r : Registro) :
  where_registros fo fv di df ac r = true <->
  (forall f, fo = Some f -> f <> "" -> col_operador_id r = upper f) /\
  (forall f, fv = Some f -> f <> "" -> col_vin r = upper f) /\
  (forall d, di = Some d -> d <= sql_date (col_hora_inicio r)) /\
  (forall d, df = Some d -> sql_date (col_hora_inicio r) <= d) /\
  (ac = true -> col_hora_fim r <> None).
Proof.
  unfold where_registros.
  rewrite !andb_true_iff, !cond_upper_spec.
  assert ((match di with
           | Some d => d <=? sql_date (col_hora_inicio r)
           | None => true
           end) = true <->
          forall d, di = Some d -> d <= sql_date (col_hora_inicio r)) as H1.
  { destruct di as [d|].
    - rewrite Z.leb_le. split; [now intros H ? [= <-]|auto].
    - split; [discriminate|auto]. }
  assert ((match df with
           | Some d => sql_date (col_hora_inicio r) <=? d
           | None => true
           end) = true <->
          forall d, df = Some d -> sql_date (col_hora_inicio r) <= d) as H2.
  { destruct df as [d|].
    - rewrite Z.leb_le. split; [now intros H ? [= <-]|auto].
    - split; [discriminate|auto]. }
  assert ((if ac then negb (is_null (col_hora_fim r)) else true) = true <->
          (ac = true -> col_hora_fim r <> None)) as H3.
  { destruct ac, (col_hora_fim r); simpl; split; try congruence; auto.
    intros H. now exfalso; apply H. }
  rewrite H1, H2, H3. tauto.
Qed.

Lemma dropna_todos (l : list Registro) :
  (forall r, In r l -> col_hora_fim r <> None) ->
  List.length (dropna (map duracao_minutos (map processar l))) = List.length l.
Proof.
  induction l as [|r t IH]; intros H; simpl; [reflexivity|].
  unfold calc_duracao_minutos.
  destruct (col_hora_fim r) eqn:E.
  - simpl. f_equal. apply IH. intros x Hx. apply H. now right.
  - exfalso. apply (H r); [now left|exact E].
Qed.

Lemma metricas_eq (df : list Linha) :
  metricas df =
  match dropna (map duracao_minutos df) with
  | [] => None
  | _ => Some (mean (dropna (map duracao_minutos df)),
               soma (dropna (map duracao_minutos df)),
               List.length (dropna (map duracao_minutos df)))
  end.
Proof. now destruct df. Qed.

End ConsultaOrdem.

(** X1.  The frame of [get_registros] holds a line for exactly the rows of
    the table that pass the filters that are given (operator and VIN
    equal to the filter in upper case, day of [hora_inicio] within the
    two dates, closed when [apenas_completos]), each row once. *)
Theorem get_registros_conteudo (db : Tabela) (fo fv : option string)
    (di df : option Z) (ac : bool) :
  Permutation (map linha_reg (get_registros db fo fv di df ac))
              (filter (where_registros fo fv di df ac) db)
  /\
  forall l, In l (get_registros db fo fv di df ac) <->
    exists r, l = processar r /\ In r db /\
      (forall f, fo = Some f -> f <> "" -> col_operador_id r = upper f) /\
      (forall f, fv = Some f -> f <> "" -> col_vin r = upper f) /\
      (forall d, di = Some d -> d <= sql_date (col_hora_inicio r)) /\
      (forall d, df = Some d -> sql_date (col_hora_inicio r) <= d) /\
      (ac = true -> col_hora_fim r <> None).
Proof.
  rewrite get_registros_eq. split.
  - rewrite map_map. simpl. rewrite map_id.
    apply order_by_inicio_desc_perm.
  - intros l. rewrite in_map_iff. split.
    + intros (r & <- & Hin). exists r. split; [reflexivity|].
      apply (Permutation_in _ (order_by_inicio_desc_perm _)) in Hin.
      apply filter_In in Hin as [Hin Hw].
      split; [exact Hin|]. now apply where_registros_spec.
    + intros (r & -> & Hin & Hw). exists r. split; [reflexivity|].
      apply (Permutation_in _ (Permutation_sym (order_by_inicio_desc_perm _))).
      apply filter_In. split; [exact Hin|]. now apply where_registros_spec.
Qed.

(** X2.  The frame of [get_registros] is ordered by [hora_inicio], latest
    first. *)
Theorem get_registros_ordenado (db : Tabela) (fo fv : option string)
    (di df : option Z) (ac : bool) :
  StronglySorted
    (fun a b => col_hora_inicio (linha_reg b) <= col_hora_inicio (linha_reg a))
    (get_registros db fo fv di df ac).
Proof.
  rewrite get_registros_eq.
  pose proof (order_by_inicio_desc_sorted
                (filter (where_registros fo fv di df ac) db)) as H.
  induction H as [|x t Hs IH Hall]; simpl; constructor; [exact IH|].
  apply Forall_forall. intros y Hy.
  apply in_map_iff in Hy as (z & <- & Hz). simpl.
  now apply (proj1 (Forall_forall _ _) Hall).
Qed.

(** X3.  The operator and VIN filters of [get_registros] do not depend
    on the case of the filter text: two texts with the same upper-case
    form give the same frame. *)
Theorem get_registros_sem_caixa (db : Tabela) (o1 o2 v1 v2 : string)
    (di df : option Z) (ac : bool) :
  upper o1 = upper o2 -> upper v1 = upper v2 ->
  get_registros db (Some o1) (Some v1) di df ac
  = get_registros db (Some o2) (Some v2) di df ac.
Proof.
  intros Ho Hv. unfold get_registros.
  assert (forall r, where_registros (Some o1) (Some v1) di df ac r
                    = where_registros (Some o2) (Some v2) di df ac r) as E.
  { intros r. unfold where_registros, cond_upper.
    rewrite <- (truthy_upper o1), <- (truthy_upper o2),
            <- (truthy_upper v1), <- (truthy_upper v2), Ho, Hv.
    reflexivity. }
  now rewrite (filter_ext _ _ E).
Qed.

(** X4.  With [apenas_completos] every line of the frame has a duration,
    so the metrics count every line shown: "Total de Reparos" is the
    number of lines, and the metrics are missing only for the empty
    frame. *)
Theorem metricas_apenas_completos (db : Tabela) (fo fv : option string)
    (di df : option Z) :
  Forall (fun l => duracao_minutos l <> None)
         (get_registros db fo fv di df true)
  /\
  match metricas (get_registros db fo fv di df true) with
  | Some (_, _, total_reparos) =>
      total_reparos = List.length (get_registros db fo fv di df true)
  | None => get_registros db fo fv di df true = []
  end.
Proof.
  assert (forall r, In r (order_by_inicio_desc
                            (filter (where_registros fo fv di df true) db)) ->
                    col_hora_fim r <> None) as Hc.
  { intros r Hin.
    apply (Permutation_in _ (order_by_inicio_desc_perm _)) in Hin.
    apply filter_In in Hin as [_ Hw].
    apply where_registros_spec in Hw. now apply Hw. }
  rewrite metricas_eq, get_registros_eq. split.
  - apply Forall_forall. intros l Hl.
    apply in_map_iff in Hl as (r & <- & Hr). simpl.
    unfold calc_duracao_minutos.
    specialize (Hc r Hr). destruct (col_hora_fim r); congruence.
  - pose proof (dropna_todos _ Hc) as Hlen.
    destruct (dropna _) eqn:E.
    + simpl in Hlen.
      destruct (order_by_inicio_desc _); [reflexivity|discriminate].
    + rewrite length_map. exact Hlen.
Qed.


(* ------------------------------------------------------------------ *)
(** * The list of open repairs *)

Section Abertos.

Lemma get_reparos_abertos_eq (db : Tabela) (now : Z) :
  get_reparos_abertos db now =
  map (processar_aberta now)
      (order_by_inicio_desc (filter (fun r => is_null (col_hora_fim r)) db)).
Proof. unfold get_reparos_abertos. now destruct (order_by_inicio_desc _). Qed.

Lemma is_null_spec {A} (o : option A) : is_null o = true <-> o = None.
Proof. destruct o; simpl; split; congruence. Qed.

Lemma n_abertos_cons_le (r : Registro) (db : Tabela) (v : string) :
  (n_abertos db v <= n_abertos (r :: db) v)%nat.
Proof.
  unfold n_abertos, abertos. simpl. destruct (aberto_de v r); simpl; lia.
Qed.

(** With at most one open repair per VIN, the open rows have pairwise
    different VINs. *)
Lemma abertos_vins_NoDup (db : Tabela) :
  um_aberto_por_vin db ->
  NoDup (map col_vin (filter (fun r => is_null (col_hora_fim r)) db)).
Proof.
  induction db as [|r t IH]; intros Hinv; simpl; [constructor|].
  assert (um_aberto_por_vin t) as Ht.
  { intros v. specialize (Hinv v). pose proof (n_abertos_cons_le r t v). lia. }
  destruct (is_null (col_hora_fim r)) eqn:E; [|now apply IH].
  simpl. constructor; [|now apply IH].
  intros Hin. apply in_map_iff in Hin as (r' & Hv & Hin').
  apply filter_In in Hin' as [Hin' Hn']. apply is_null_spec in Hn'.
  apply is_null_spec in E.
  specialize (Hinv (col_vin r)). unfold n_abertos, abertos in Hinv.
  simpl in Hinv.
  assert (aberto_de (col_vin r) r = true) as A1
    by (apply aberto_de_spec; auto).
  rewrite A1 in Hinv. simpl in Hinv.
  assert (In r' (filter (aberto_de (col_vin r)) t)) as A2.
  { apply filter_In. split; [exact Hin'|]. apply aberto_de_spec. auto. }
  destruct (filter (aberto_de (col_vin r)) t); [contradiction|].
  simpl in Hinv. lia.
Qed.

End Abertos.

(** X6.  [get_reparos_abertos] lists exactly the rows without [hora_fim],
    each once, latest start first. *)
Theorem get_reparos_abertos_conteudo (db : Tabela) (now : Z) :
  List.length (get_reparos_abertos db now)
  = List.length (filter (fun r => is_null (col_hora_fim r)) db)
  /\
  (forall l, In l (get_reparos_abertos db now) <->
     exists r, In r db /\ col_hora_fim r = None /\ l = processar_aberta now r)
  /\
  StronglySorted (fun a b => ab_hora_inicio b <= ab_hora_inicio a)
                 (get_reparos_abertos db now).
Proof.
  rewrite get_reparos_abertos_eq. split; [|split].
  - rewrite length_map.
    apply Permutation_length, order_by_inicio_desc_perm.
  - intros l. rewrite in_map_iff. split.
    + intros (r & <- & Hin). exists r.
      apply (Permutation_in _ (order_by_inicio_desc_perm _)) in Hin.
      apply filter_In in Hin as [Hin Hn]. apply is_null_spec in Hn. auto.
    + intros (r & Hin & Hn & ->). exists r. split; [reflexivity|].
      apply (Permutation_in _ (Permutation_sym (order_by_inicio_desc_perm _))).
      apply filter_In. split; [exact Hin|]. now apply is_null_spec.
  - pose proof (order_by_inicio_desc_sorted
                  (filter (fun r => is_null (col_hora_fim r)) db)) as H.
    induction H as [|x t Hs IH Hall]; simpl; constructor; [exact IH|].
    apply Forall_forall. intros y Hy.
    apply in_map_iff in Hy as (z & <- & Hz). simpl.
    now apply (proj1 (Forall_forall _ _) Hall).
Qed.

(** X7.  After any history of starts and stops from the empty table, the
    list of open repairs shows no VIN twice. *)
Theorem get_reparos_abertos_vins_distintos (cs : list Chamada) (now : Z) :
  NoDup (map ab_vin (get_reparos_abertos (historia cs []) now)).
Proof.
  rewrite get_reparos_abertos_eq, map_map. simpl.
  pose proof (abertos_vins_NoDup _ (historia_um_aberto cs [] um_aberto_vazia))
    as H.
  eapply Permutation_NoDup; [|exact H].
  apply Permutation_sym, Permutation_map, order_by_inicio_desc_perm.
Qed.

(* ------------------------------------------------------------------ *)
(** * The forms against the operations *)

Section Formularios.

Lemma minutos_int_trunc (now inicio : Z) :
  strptime inicio <= now ->
  minutos_int (strptime (strftime now) - strptime inicio)
  = minutos_int (now - strptime inicio).
Proof.
  unfold minutos_int, strptime, strftime. intros H.
  assert (now / 1000000 - inicio = (now - inicio * 1000000) / 1000000) as E.
  { replace (now - inicio * 1000000) with (now + (- inicio) * 1000000) by lia.
    rewrite Z.div_add by lia. lia. }
  set (x := now - inicio * 1000000) in *.
  assert (0 <= x) as Hx by (unfold x; lia).
  replace (now / 1000000 * 1000000 - inicio * 1000000)
    with ((x / 1000000) * 1000000) by (rewrite <- E; lia).
  assert (0 <= x / 1000000) as Hq by (apply Z.div_pos; lia).
  rewrite !Z.quot_div_nonneg by lia.
  change 60000000 with (60 * 1000000).
  rewrite Z.div_mul_cancel_r by lia.
  rewrite (Z.mul_comm 60 1000000), <- Z.div_div by lia.
  reflexivity.
Qed.

(** The lookup of [verificar_reparo_aberto] on a normalized VIN is the
    lookup of [finalizar_reparo]. *)
Lemma verificar_reparo_aberto_eq (db : Tabela) (v : string) :
  verificar_reparo_aberto db (strip (upper v)) =
  match order_by_inicio_desc_limit1 (abertos db (strip (upper v))) with
  | Some r => Some (col_id r, col_operador_id r, col_hora_inicio r)
  | None => None
  end.
Proof. unfold verificar_reparo_aberto. now rewrite upper_vin_limpo. Qed.

Lemma finalizar_reparo_normalizado (db : Tabela) (v : string) (now : Z) :
  strip (upper v) <> "" ->
  finalizar_reparo db (strip (upper v)) now = finalizar_reparo db v now.
Proof.
  intros Hn. assert (v <> "") as Hv by (intros ->; now apply Hn).
  now rewrite !finalizar_reparo_eq, normalizar_idem by assumption.
Qed.

Lemma iniciar_reparo_normalizado (db : Tabela) (v op : string)
    (t sh : option string) (env : Env) :
  strip (upper v) <> "" ->
  iniciar_reparo db (strip (upper v)) op t sh env
  = iniciar_reparo db v op t sh env.
Proof.
  intros Hn. assert (v <> "") as Hv by (intros ->; now apply Hn).
  rewrite !iniciar_reparo_eq by assumption.
  unfold valores_insert. now rewrite normalizar_idem.
Qed.

End Formularios.


(** X9.  For a non-empty VIN argument, on any table, either the VIN has
    an open repair, and then a start is refused for it and a stop
    succeeds, or it has none, and then a stop is refused and a start is
    not refused for an open repair: it succeeds with the new id, or
    reports the error of the storage layer. *)
Theorem iniciar_ou_finalizar (db : Tabela) (vin op : string)
    (t sh : option string) (env : Env) (now : Z) :
  vin <> "" ->
  ((exists m, iniciar_reparo db vin op t sh env
              = (db, inl (ReparoEmAberto m))) /\
   (exists res, snd (finalizar_reparo db vin now) = inr res))
  \/
  (finalizar_reparo db vin now = (db, inl NenhumReparoAberto) /\
   (snd (iniciar_reparo db vin op t sh env) = inr (uuid4 env) \/
    iniciar_reparo db vin op t sh env = (db, inl ErroAoIniciar))).
Proof.
  intros Hv.
  rewrite (iniciar_reparo_eq _ _ _ _ _ _ Hv), (finalizar_reparo_eq _ _ _ Hv).
  destruct (order_by_inicio_desc_limit1 _) as [r|].
  - left. split; eexists; reflexivity.
  - right. split; [reflexivity|].
    destruct (sqlite_falha env); [now right|].
    destruct (sql_insert _ _); [now left|now right].
Qed.

(** X10.  In a run in which the start form is submitted, the note under
    the form is computed on the table the submit has left: after a start
    that succeeded it warns of the repair just started, with the minutes
    since its own [hora_inicio]; after a start refused for an open
    repair it warns of that repair; after a storage error it is absent;
    for a blank VIN it repeats the validation error. *)
Theorem validacao_visual_apos_submit (db : Tabela)
    (vin_start operador_id tipo shop : string) (env : Env) (now' : Z) :
  match aba_iniciar_submit db vin_start operador_id tipo shop env now' with
  | (_, VinObrigatorio, nota) => nota = SemAviso
  | (_, OperadorObrigatorio, nota) => nota = validacao_visual db vin_start now'
  | (_, ShopObrigatorio, nota) => nota = validacao_visual db vin_start now'
  | (_, ErroDeValidacao e, nota) => nota = AvisoValidacao e
  | (_, ReparoIniciado _, nota) =>
      nota = AvisoJaAberto
               (minutos_int (now' - strptime (strftime (agora env))))
  | (_, FalhaAoIniciar e, nota) =>
      match e with
      | ReparoEmAberto m =>
          exists r, aberto_mais_recente db (strip (upper vin_start)) r /\
            m = minutos_int (agora env - strptime (col_hora_inicio r)) /\
            nota = AvisoJaAberto
                     (minutos_int (now' - strptime (col_hora_inicio r)))
      | _ => nota = SemAviso
      end
  end.
Proof.
  unfold aba_iniciar_submit, form_iniciar_reparo.
  destruct (truthy vin_start) eqn:Hv; simpl.
  2:{ unfold validacao_visual. now rewrite Hv. }
  destruct (truthy operador_id) eqn:Ho; simpl; [|reflexivity].
  destruct (truthy shop) eqn:Hs; simpl; [|reflexivity].
  destruct (strip (upper vin_start)) as [|c v'] eqn:En.
  { simpl. unfold validacao_visual. now rewrite Hv, En. }
  assert (strip (upper (String c v')) = String c v') as Hidem
    by (rewrite <- En; apply normalizar_idem).
  assert (validar_vin (String c v') = inr (String c v')) as Hval.
  { rewrite validar_vin_ok by discriminate. now rewrite Hidem. }
  assert (forall tb, validacao_visual tb vin_start now' =
            match order_by_inicio_desc_limit1 (abertos tb (String c v')) with
            | Some r => AvisoJaAberto
                          (minutos_int (now' - strptime (col_hora_inicio r)))
            | None => SemAviso
            end) as Hnota.
  { intros tb. unfold validacao_visual. rewrite Hv, En, Hval.
    rewrite <- Hidem at 1. rewrite verificar_reparo_aberto_eq, Hidem.
    now destruct (order_by_inicio_desc_limit1 _). }
  rewrite Hval. rewrite iniciar_reparo_eq by discriminate. rewrite Hidem.
  destruct (order_by_inicio_desc_limit1 (abertos db (String c v')))
    as [r|] eqn:E.
  - exists r. split; [now apply limit1_abertos|]. split; [reflexivity|].
    now rewrite Hnota, E.
  - destruct (sqlite_falha env); [now rewrite Hnota, E|].
    destruct (sql_insert _ _) as [db'|] eqn:I; [|now rewrite Hnota, E].
    apply insert_some in I as [-> _].
    rewrite Hnota, abertos_app.
    apply limit1_none in E. rewrite E. simpl.
    unfold aberto_de, valores_insert. simpl.
    change (String (upper_char c) (upper v')) with (upper (String c v')).
    rewrite Hidem, String.eqb_refl. reflexivity.
Qed.

(** X11.  While the clock is not before the start of the open repair,
    the minutes in the refusal of a start are the minutes that a stop at
    the same moment reports for the repair it closes. *)
Theorem minutos_iniciar_e_finalizar (db db' : Tabela) (vin op : string)
    (t sh : option string) (env : Env) (m : Z) (rid o : string)
    (duracao : Z) :
  iniciar_reparo db vin op t sh env = (db, inl (ReparoEmAberto m)) ->
  finalizar_reparo db vin (agora env) = (db', inr (rid, duracao, o)) ->
  0 <= duracao ->
  minutos_int duracao = m.
Proof.
  intros Hi Hf Hd.
  assert (vin <> "") as Hv by (intros ->; discriminate Hf).
  rewrite (iniciar_reparo_eq _ _ _ _ _ _ Hv) in Hi.
  rewrite (finalizar_reparo_eq _ _ _ Hv) in Hf.
  destruct (order_by_inicio_desc_limit1 _) as [r|]; [|discriminate].
  injection Hi as <-. injection Hf as _ _ <- _.
  apply minutos_int_trunc.
  unfold strptime, strftime in *.
  assert (col_hora_inicio r <= agora env / 1000000) as H by lia.
  pose proof (Z.mul_div_le (agora env) 1000000). lia.
Qed.

(* ------------------------------------------------------------------ *)
(** * More invariants of histories *)

Section MaisInvariantes.

Lemma strftime_mono (a b : Z) : a <= b -> strftime a <= strftime b.
Proof. intros H. unfold strftime. apply Z.div_le_mono; lia. Qed.

Lemma update_In (db : Tabela) (t : Z) (i : string) (x : Registro) :
  In x (sql_update_hora_fim db t i) ->
  In x db \/ exists r, In r db /\ x = set_hora_fim t r.
Proof.
  unfold sql_update_hora_fim. intros H.
  apply in_map_iff in H as (r & E & Hin).
  destruct (col_id r =? i)%string; subst; eauto.
Qed.

(** One call, with rows that started no later than the clock [t] and
    ended no earlier than they started. *)
Lemma executar_tempos (db : Tabela) (c : Chamada) (t : Z) :
  t <= relogio c ->
  (forall r, In r db ->
     col_hora_inicio r <= strftime t /\
     forall f, col_hora_fim r = Some f -> col_hora_inicio r <= f) ->
  forall r, In r (executar db c) ->
     col_hora_inicio r <= strftime (relogio c) /\
     forall f, col_hora_fim r = Some f -> col_hora_inicio r <= f.
Proof.
  intros Ht Hinv.
  assert (forall r, In r db ->
     col_hora_inicio r <= strftime (relogio c) /\
     forall f, col_hora_fim r = Some f -> col_hora_inicio r <= f) as Hinv'.
  { intros r Hr. destruct (Hinv r Hr) as [H1 H2]. split; [|exact H2].
    pose proof (strftime_mono _ _ Ht). lia. }
  destruct c as [v o ti s env|v now]; simpl in *.
  - destruct (iniciar_reparo_tabela db v o ti s env) as [->|(-> & _)];
      [exact Hinv'|].
    intros r Hr. apply in_app_or in Hr as [Hr|[<-|[]]]; [now apply Hinv'|].
    simpl. split; [lia|discriminate].
  - destruct (finalizar_reparo_tabela db v now) as [->|(r0 & _ & ->)];
      [exact Hinv'|].
    intros r Hr. apply update_In in Hr as [Hr|(r1 & Hr1 & ->)];
      [now apply Hinv'|].
    simpl. destruct (Hinv' r1 Hr1) as [H1 _].
    split; [exact H1|]. now intros f [= <-].
Qed.

Lemma historia_tempos (cs : list Chamada) :
  forall (db : Tabela) (t : Z),
  relogio_nao_recua t cs = true ->
  (forall r, In r db ->
     col_hora_inicio r <= strftime t /\
     forall f, col_hora_fim r = Some f -> col_hora_inicio r <= f) ->
  forall r f, In r (historia cs db) -> col_hora_fim r = Some f ->
              col_hora_inicio r <= f.
Proof.
  induction cs as [|c cs IH]; intros db t Hm Hinv r f Hin Hf; simpl in *.
  - now apply (Hinv r Hin).
  - apply andb_true_iff in Hm as [Hle Hm]. apply Z.leb_le in Hle.
    apply (IH (executar db c) (relogio c) Hm); try assumption.
    now apply (executar_tempos db c t).
Qed.

Lemma update_dados_fixos (db : Tabela) (t : Z) (i : string) :
  map dados_fixos (sql_update_hora_fim db t i) = map dados_fixos db.
Proof.
  unfold sql_update_hora_fim. rewrite map_map.
  apply map_ext. intros r. now destruct (col_id r =? i)%string.
Qed.

Lemma executar_dados_fixos (db : Tabela) (c : Chamada) :
  exists novos, map dados_fixos (executar db c) = map dados_fixos db ++ novos.
Proof.
  destruct c as [v o ti s env|v now]; simpl.
  - destruct (iniciar_reparo_tabela db v o ti s env) as [->|(-> & _)].
    + exists []. now rewrite app_nil_r.
    + eexists. now rewrite map_app.
  - destruct (finalizar_reparo_tabela db v now) as [->|(r0 & _ & ->)].
    + exists []. now rewrite app_nil_r.
    + exists []. now rewrite update_dados_fixos, app_nil_r.
Qed.

(** What every row written by [iniciar_reparo] satisfies, and no UPDATE
    undoes. *)
Lemma executar_normal (db : Tabela) (c : Chamada) :
  (forall r, In r db ->
     vin_normalizado (col_vin r) /\
     strip (upper (col_operador_id r)) = col_operador_id r /\
     col_shop r <> Some "") ->
  forall r, In r (executar db c) ->
     vin_normalizado (col_vin r) /\
     strip (upper (col_operador_id r)) = col_operador_id r /\
     col_shop r <> Some "".
Proof.
  intros Hinv. destruct c as [v o ti s env|v now]; simpl.
  - destruct (iniciar_reparo_tabela db v o ti s env) as [->|(-> & _)];
      [exact Hinv|].
    intros r Hr. apply in_app_or in Hr as [Hr|[<-|[]]]; [now apply Hinv|].
    simpl. split; [apply normalizar_idem|]. split.
    + now rewrite upper_idem, <- upper_strip, strip_idem.
    + destruct s as [[|c s']|]; simpl; congruence.
  - destruct (finalizar_reparo_tabela db v now) as [->|(r0 & _ & ->)];
      [exact Hinv|].
    intros r Hr. apply update_In in Hr as [Hr|(r1 & Hr1 & ->)];
      [now apply Hinv|].
    simpl. now apply Hinv.
Qed.

End MaisInvariantes.

(** X12.  When the clock never goes back along a history from the empty
    table, every closed row ends no earlier than it started: no stop
    reports a negative duration. *)
Theorem historia_inicio_antes_do_fim (cs : list Chamada) (t0 : Z)
    (r : Registro) (f : Z) :
  relogio_nao_recua t0 cs = true ->
  In r (historia cs []) -> col_hora_fim r = Some f ->
  col_hora_inicio r <= f.
Proof.
  intros Hm. apply (historia_tempos cs [] t0 Hm). intros ? [].
Qed.

(** X13.  No history removes or reorders rows, or changes a column other
    than [hora_fim]: the table after it is the old rows, with their id,
    VIN, operator, type, shop and [hora_inicio], followed by the new
    ones. *)
Theorem historia_dados_fixos (cs : list Chamada) (db : Tabela) :
  exists novos,
    map dados_fixos (historia cs db) = map dados_fixos db ++ novos.
Proof.
  revert db. induction cs as [|c cs IH]; intros db; simpl.
  - exists []. now rewrite app_nil_r.
  - destruct (IH (executar db c)) as (n2 & E2).
    destruct (executar_dados_fixos db c) as (n1 & E1).
    exists (n1 ++ n2). now rewrite E2, E1, app_assoc.
Qed.

(** X14.  After any history from the empty table the ids are pairwise
    different, every stored VIN is in upper case without blanks around
    it, so is every stored operator, and no stored shop is the empty
    text. *)
Theorem historia_normalizada (cs : list Chamada) :
  pk_ok (historia cs []) /\
  forall r, In r (historia cs []) ->
    strip (upper (col_vin r)) = col_vin r /\
    strip (upper (col_operador_id r)) = col_operador_id r /\
    col_shop r <> Some "".
Proof.
  split.
  - apply historia_pk_ok. constructor.
  - assert (forall db,
      (forall r, In r db ->
         vin_normalizado (col_vin r) /\
         strip (upper (col_operador_id r)) = col_operador_id r /\
         col_shop r <> Some "") ->
      forall r, In r (historia cs db) ->
         vin_normalizado (col_vin r) /\
         strip (upper (col_operador_id r)) = col_operador_id r /\
         col_shop r <> Some "") as G.
    { induction cs as [|c cs IH]; intros db Hinv; simpl; [exact Hinv|].
      apply IH. now apply executar_normal. }
    apply G. intros ? [].
Qed.

(** X15.  A VIN can be started again once stopped: on a table with at
    most one open repair per VIN, after a successful stop of a VIN, a
    start of that VIN with a fresh id and a working storage layer
    succeeds and appends its row. *)
Theorem iniciar_apos_finalizar (db db' : Tabela) (vin op : string)
    (t sh : option string) (env : Env) (now : Z)
    (res : string * Z * string) :
  um_aberto_por_vin db ->
  finalizar_reparo db vin now = (db', inr res) ->
  ~ In (uuid4 env) (map col_id db') ->
  sqlite_falha env = false ->
  iniciar_reparo db' vin op t sh env
  = (db' ++ [valores_insert vin op t sh env], inr (uuid4 env)).
Proof.
  intros Hinv Hf Hfresh Hok.
  assert (vin <> "") as Hv by (intros ->; discriminate Hf).
  apply abertos_apos_finalizar in Hf; [|apply Hinv].
  rewrite (iniciar_reparo_eq _ _ _ _ _ _ Hv), Hf, Hok. simpl.
  now rewrite insert_fresh.
Qed.

(** X16.  A start or a stop of one VIN leaves the open repairs of every
    other VIN as they were (for the stop, in a table that respects the
    primary key). *)
Theorem outros_vins_intactos (db : Tabela) (vin op : string)
    (t sh : option string) (env : Env) (now : Z) (v' : string) :
  v' <> strip (upper vin) ->
  abertos (fst (iniciar_reparo db vin op t sh env)) v' = abertos db v' /\
  (pk_ok db ->
   abertos (fst (finalizar_reparo db vin now)) v' = abertos db v').
Proof.
  intros Hne. split.
  - destruct (iniciar_reparo_tabela db vin op t sh env) as [->|(-> & _)];
      [reflexivity|].
    rewrite abertos_app.
    assert (abertos [valores_insert vin op t sh env] v' = []) as E.
    { unfold abertos, aberto_de. simpl.
      assert ((strip (upper vin) =? v')%string = false) as E
        by (apply String.eqb_neq; congruence).
      now rewrite E. }
    rewrite E. apply app_nil_r.
  - intros Hpk.
    destruct (finalizar_reparo_tabela db vin now)
      as [->|(r0 & (Hin0 & Hv0 & _) & ->)]; [reflexivity|].
    rewrite abertos_update.
    apply forallb_filter_id. apply forallb_forall. intros x Hx.
    apply abertos_In in Hx as (Hx & Hvx & _).
    apply negb_true_iff, String.eqb_neq. intros Hid.
    apply (pk_inj db x r0 Hpk Hx Hin0) in Hid. subst x. congruence.
Qed.

(** X17.  The start form writes at most one row, and only when VIN,
    operator and shop are filled in and the VIN is not blank; the row has
    the VIN in normalized form, the chosen shop, and no [hora_fim].  In
    every other case the table is left as it was. *)
Theorem form_iniciar_reparo_escreve (db : Tabela)
    (vin_start operador_id tipo shop : string) (env : Env) :
  match form_iniciar_reparo db vin_start operador_id tipo shop env with
  | (db', ReparoIniciado rid) =>
      strip (upper vin_start) <> "" /\ operador_id <> "" /\ shop <> "" /\
      db' = db ++ [mkRegistro rid (strip (upper vin_start))
                     (upper (strip operador_id))
                     (if truthy tipo then Some (strip tipo) else None)
                     (Some shop) (strftime (agora env)) None]
  | (db', _) => db' = db
  end.
Proof.
  unfold form_iniciar_reparo.
  destruct (truthy vin_start) eqn:Hv; simpl; [|reflexivity].
  destruct (truthy operador_id) eqn:Ho; simpl; [|reflexivity].
  destruct (truthy shop) eqn:Hs; simpl; [|reflexivity].
  apply truthy_true in Ho. pose proof Hs as Hs'. apply truthy_true in Hs'.
  destruct (strip (upper vin_start)) as [|c v'] eqn:En; [reflexivity|].
  assert (validar_vin (String c v') = inr (String c v')) as Hval.
  { rewrite validar_vin_ok by discriminate.
    rewrite <- En. now rewrite normalizar_idem. }
  rewrite Hval.
  destruct (iniciar_reparo db (String c v') operador_id
              (if truthy tipo then Some tipo else None) (Some shop) env)
    as [db' [e|rid]] eqn:E.
  - pose proof (iniciar_reparo_erro db (String c v') operador_id
                  (if truthy tipo then Some tipo else None) (Some shop)
                  env e) as H.
    rewrite E in H. now apply H.
  - apply iniciar_reparo_sucesso in E as (_ & -> & _ & -> & _).
    split; [discriminate|]. split; [exact Ho|]. split; [exact Hs'|].
    unfold valores_insert. simpl truthy_opt. rewrite Hs.
    rewrite <- En, normalizar_idem.
    now destruct (truthy tipo) eqn:Et; [rewrite Et|].
Qed.

(** X18.  The stop form closes a repair only for a text whose normalized
    form is not empty; the table it leaves is then the old one with
    [hora_fim = now] (to the second) written on the rows that carry the
    id of an open row of that VIN with the latest start, and that row is
    in it with that [hora_fim].  A blank text is answered with the
    empty-VIN message.  In every case but the success the table is left
    as it was. *)
Theorem form_finalizar_reparo_escreve (db : Tabela) (vin_end : string)
    (now : Z) :
  match form_finalizar_reparo db vin_end now with
  | (db', ReparoFinalizado minutos _ operador) =>
      strip (upper vin_end) <> "" /\
      exists r, aberto_mais_recente db (strip (upper vin_end)) r /\
        db' = map (fun x =>
                     if (col_id x =? col_id r)%string
                     then mkRegistro (col_id x) (col_vin x)
                            (col_operador_id x) (col_tipo_retrabalho x)
                            (col_shop x) (col_hora_inicio x)
                            (Some (strftime now))
                     else x) db /\
        In (mkRegistro (col_id r) (col_vin r) (col_operador_id r)
              (col_tipo_retrabalho r) (col_shop r) (col_hora_inicio r)
              (Some (strftime now))) db' /\
        operador = col_operador_id r /\
        minutos = minutos_int (strptime (strftime now)
                               - strptime (col_hora_inicio r))
  | (db', Atencao e) =>
      db' = db /\
      (e = VinVazio <-> vin_end <> "" /\ strip (upper vin_end) = "")
  | (db', PreenchaVin) => db' = db /\ vin_end = ""
  end.
Proof.
  unfold form_finalizar_reparo.
  destruct (truthy vin_end) eqn:Hv; simpl.
  2:{ split; [reflexivity|]. now apply truthy_false. }
  apply truthy_true in Hv.
  destruct (strip (upper vin_end)) as [|c v'] eqn:En.
  - simpl. split; [reflexivity|]. split; auto.
  - rewrite finalizar_reparo_eq by discriminate.
    rewrite <- En, normalizar_idem.
    destruct (order_by_inicio_desc_limit1 _) as [r|] eqn:E.
    + split; [rewrite En; discriminate|].
      exists r. pose proof (limit1_abertos _ _ _ E) as Hr.
      split; [exact Hr|]. split; [reflexivity|].
      split; [|auto].
      destruct Hr as (Hin & _).
      apply (update_sets db (strftime now) r Hin).
    + split; [reflexivity|]. split; [discriminate|].
      intros [_ C]. rewrite En in C. discriminate.
Qed.

(** The reports tab has something to show exactly when some row is
    closed. *)
Lemma relatorios_vazios (db : Tabela) :
  get_registros db None None None None true = [] <->
  forall f, In f db -> col_hora_fim f = None.
Proof.
  rewrite get_registros_eq. split.
  - intros H f Hf.
    destruct (col_hora_fim f) as [fim|] eqn:Ef; [|reflexivity].
    exfalso.
    assert (In f (order_by_inicio_desc
                    (filter (where_registros None None None None true) db)))
      as Hin.
    { apply (Permutation_in _
               (Permutation_sym (order_by_inicio_desc_perm _))).
      apply filter_In. split; [exact Hf|].
      apply where_registros_spec. repeat split; try discriminate.
      intros _. congruence. }
    apply (in_map processar) in Hin. rewrite H in Hin. exact Hin.
  - intros H.
    destruct (order_by_inicio_desc _) as [|r l] eqn:E; [reflexivity|].
    exfalso.
    assert (In r (r :: l)) as Hin by now left.
    rewrite <- E in Hin.
    apply (Permutation_in _ (order_by_inicio_desc_perm _)) in Hin.
    apply filter_In in Hin as [Hin Hw].
    apply where_registros_spec in Hw as (_ & _ & _ & _ & Hc).
    apply (Hc eq_refl). now apply H.
Qed.

(** X19.  Once the table holds a closed repair, a repair started under a
    VIN whose normalized form is not empty is found by the history
    search of the reports tab for any text with the same normalized
    form, and that search shows rows of that VIN only; while no repair
    is closed the tab offers no search. *)
Theorem historico_vin_encontra (db db' : Tabela) (vin op : string)
    (t sh : option string) (env : Env) (rid vin_busca : string) :
  iniciar_reparo db vin op t sh env = (db', inr rid) ->
  strip (upper vin) <> "" ->
  strip (upper vin_busca) = strip (upper vin) ->
  ((exists f, In f db' /\ col_hora_fim f <> None) ->
   exists frame,
     historico_vin db' vin_busca = Some frame /\
     In (processar (valores_insert vin op t sh env)) frame /\
     forall l, In l frame -> col_vin (linha_reg l) = strip (upper vin))
  /\
  ((forall f, In f db' -> col_hora_fim f = None) ->
   historico_vin db' vin_busca = None).
Proof.
  intros Hi Hn Hb.
  assert (vin_busca <> "") as Hv.
  { intros ->. simpl in Hb. now apply Hn. }
  apply truthy_true in Hv. split.
  - intros (f & Hf & Hc).
    unfold historico_vin.
    destruct (get_registros db' None None None None true) eqn:R.
    { exfalso. apply Hc. now apply (proj1 (relatorios_vazios db') R). }
    rewrite Hv. eexists. split; [reflexivity|]. rewrite Hb. split.
    + apply get_registros_filtro_vin.
      exists (valores_insert vin op t sh env). split; [reflexivity|].
      apply iniciar_reparo_sucesso in Hi as (_ & _ & _ & -> & _).
      split; [apply in_or_app; right; now left|].
      right. simpl. now rewrite upper_vin_limpo.
    + intros ln Hl. apply get_registros_filtro_vin in Hl
        as (r & -> & _ & [C|Hr]); [contradiction|].
      simpl. now rewrite Hr, upper_vin_limpo.
  - intros Hall. unfold historico_vin.
    now rewrite (proj2 (relatorios_vazios db') Hall).
Qed.

(* ------------------------------------------------------------------ *)
(** * Grouped counts *)

Section GroupByFacts.

Context {K : Type} (cmp : K -> K -> comparison).
Hypothesis cmp_eq : forall a b, cmp a b = Eq <-> a = b.
Hypothesis cmp_antisym : forall a b, cmp a b = CompOpp (cmp b a).
Hypothesis cmp_trans :
  forall a b c, cmp a b = Lt -> cmp b c = Lt -> cmp a c = Lt.

Lemma cmp_gt_lt (a b : K) : cmp a b = Gt -> cmp b a = Lt.
Proof. intros H. rewrite cmp_antisym, H. reflexivity. Qed.

Lemma cmp_lt_gt (a b : K) : cmp a b = Lt -> cmp b a = Gt.
Proof. intros H. rewrite cmp_antisym, H. reflexivity. Qed.

Lemma cmp_refl (a : K) : cmp a a = Eq.
Proof. now apply cmp_eq. Qed.

Lemma list_sum_contar (k : K) (l : list (K * nat)) :
  list_sum (map snd (contar cmp k l)) = S (list_sum (map snd l)).
Proof.
  induction l as [|[x n] t IH]; simpl; [reflexivity|].
  destruct (cmp k x); simpl; [reflexivity|reflexivity|].
  rewrite IH. lia.
Qed.

Lemma procurar_contar (k' k : K) (l : list (K * nat)) :
  procurar cmp k' (contar cmp k l)
  = (procurar cmp k' l + if eh_chave cmp k' k then 1 else 0)%nat.
Proof.
  unfold eh_chave.
  induction l as [|[x n] t IH]; simpl.
  - destruct (cmp k' k); reflexivity.
  - destruct (cmp k x) eqn:Ekx; simpl.
    + apply cmp_eq in Ekx. subst x.
      destruct (cmp k' k); lia.
    + destruct (cmp k' k) eqn:Ek'.
      * apply cmp_eq in Ek'. subst k'. now rewrite Ekx.
      * now rewrite (cmp_trans _ _ _ Ek' Ekx).
      * lia.
    + destruct (cmp k' x) eqn:Ek'x.
      * apply cmp_eq in Ek'x. subst x.
        rewrite (cmp_gt_lt _ _ Ekx). lia.
      * apply cmp_gt_lt in Ekx.
        rewrite (cmp_trans _ _ _ Ek'x Ekx). lia.
      * exact IH.
Qed.

Lemma procurar_fold (k : K) (ks : list K) :
  forall acc,
  procurar cmp k (fold_left (fun a x => contar cmp x a) ks acc)
  = (procurar cmp k acc + List.length (filter (eh_chave cmp k) ks))%nat.
Proof.
  induction ks as [|x ks IH]; intros acc; simpl; [lia|].
  rewrite IH, procurar_contar.
  destruct (eh_chave cmp k x); simpl; lia.
Qed.

Lemma contar_In (k : K) (l : list (K * nat)) (e : K * nat) :
  In e (contar cmp k l) ->
  fst e = k \/ In e l.
Proof.
  induction l as [|[x n] t IH]; simpl.
  - intros [<-|[]]. now left.
  - destruct (cmp k x) eqn:E; simpl.
    + intros [<-|H]; [|now right; right].
      apply cmp_eq in E. now left.
    + intros [<-|[<-|H]]; auto.
    + intros [<-|H]; [now right; left|].
      destruct (IH H); auto.
Qed.

Lemma contar_crescente (k : K) (l : list (K * nat)) :
  StronglySorted (fun a b => cmp (fst a) (fst b) = Lt) l ->
  StronglySorted (fun a b => cmp (fst a) (fst b) = Lt) (contar cmp k l).
Proof.
  induction 1 as [|[x n] t Hs IH Hall]; simpl.
  - constructor; constructor.
  - destruct (cmp k x) eqn:E.
    + constructor; [exact Hs|exact Hall].
    + constructor; [now constructor|].
      constructor; [exact E|].
      apply Forall_forall. intros y Hy. simpl.
      pose proof (proj1 (Forall_forall _ _) Hall y Hy) as G. simpl in G.
      now apply (cmp_trans _ _ _ E).
    + constructor; [exact IH|].
      apply Forall_forall. intros y Hy. simpl.
      apply contar_In in Hy as [->|Hy].
      * now apply cmp_gt_lt.
      * now apply (proj1 (Forall_forall _ _) Hall y Hy).
Qed.

Lemma contar_positivo (k : K) (l : list (K * nat)) :
  Forall (fun e => (0 < snd e)%nat) l ->
  Forall (fun e => (0 < snd e)%nat) (contar cmp k l).
Proof.
  induction 1 as [|[x n] t Hx Ht IH]; simpl.
  - constructor; [simpl; lia|constructor].
  - destruct (cmp k x); constructor; simpl in *; try lia; try assumption.
    now constructor.
Qed.

Lemma groupby_size_inv (ks : list K) :
  StronglySorted (fun a b => cmp (fst a) (fst b) = Lt) (groupby_size cmp ks)
  /\ Forall (fun e => (0 < snd e)%nat) (groupby_size cmp ks).
Proof.
  unfold groupby_size.
  assert (forall acc,
    StronglySorted (fun a b => cmp (fst a) (fst b) = Lt) acc /\
    Forall (fun e => (0 < snd e)%nat) acc ->
    StronglySorted (fun a b => cmp (fst a) (fst b) = Lt)
      (fold_left (fun a x => contar cmp x a) ks acc) /\
    Forall (fun e => (0 < snd e)%nat)
      (fold_left (fun a x => contar cmp x a) ks acc)) as G.
  { induction ks as [|x ks IH]; intros acc [H1 H2]; simpl; [auto|].
    apply IH. split; [now apply contar_crescente|now apply contar_positivo]. }
  apply G. split; constructor.
Qed.

Lemma procurar_In (l : list (K * nat)) (k : K) (n : nat) :
  StronglySorted (fun a b => cmp (fst a) (fst b) = Lt) l ->
  In (k, n) l -> procurar cmp k l = n.
Proof.
  induction 1 as [|[x m] t Hs IH Hall]; simpl; [tauto|].
  intros [[= -> ->]|Hin].
  - now rewrite cmp_refl.
  - pose proof (proj1 (Forall_forall _ _) Hall _ Hin) as G. simpl in G.
    rewrite (cmp_lt_gt _ _ G). now apply IH.
Qed.

Lemma In_procurar (l : list (K * nat)) (k : K) :
  (0 < procurar cmp k l)%nat -> In (k, procurar cmp k l) l.
Proof.
  induction l as [|[x m] t IH]; simpl; [lia|].
  destruct (cmp k x) eqn:E.
  - apply cmp_eq in E. subst x. now left.
  - lia.
  - intros H. right. now apply IH.
Qed.

Lemma crescente_NoDup (l : list (K * nat)) :
  StronglySorted (fun a b => cmp (fst a) (fst b) = Lt) l ->
  NoDup (map fst l).
Proof.
  induction 1 as [|x t Hs IH Hall]; simpl; constructor; [|exact IH].
  intros Hin. apply in_map_iff in Hin as (y & Hy & Hin).
  pose proof (proj1 (Forall_forall _ _) Hall y Hin) as G. simpl in G.
  rewrite Hy, cmp_refl in G. discriminate.
Qed.

Lemma list_sum_groupby (ks : list K) :
  list_sum (map snd (groupby_size cmp ks)) = List.length ks.
Proof.
  unfold groupby_size.
  assert (forall acc,
    list_sum (map snd (fold_left (fun a x => contar cmp x a) ks acc))
    = (list_sum (map snd acc) + List.length ks)%nat) as G.
  { induction ks as [|x ks IH]; intros acc; simpl; [lia|].
    rewrite IH, list_sum_contar. lia. }
  now rewrite G.
Qed.

(** The table of counts, entry by entry. *)
Lemma groupby_size_In (ks : list K) (k : K) (n : nat) :
  In (k, n) (groupby_size cmp ks) <->
  n = List.length (filter (eh_chave cmp k) ks) /\ (0 < n)%nat.
Proof.
  destruct (groupby_size_inv ks) as [Hs Hp].
  assert (procurar cmp k (groupby_size cmp ks)
          = List.length (filter (eh_chave cmp k) ks)) as Hc.
  { unfold groupby_size. now rewrite procurar_fold. }
  split.
  - intros Hin. split.
    + rewrite <- Hc. symmetry. now apply procurar_In.
    + now apply (proj1 (Forall_forall _ _) Hp _ Hin).
  - intros [-> Hpos]. rewrite <- Hc in *. now apply In_procurar.
Qed.

Lemma inserir_valor_desc_perm (e : K * nat) (l : list (K * nat)) :
  Permutation (inserir_valor_desc e l) (e :: l).
Proof.
  induction l as [|x t IH]; simpl; [apply Permutation_refl|].
  destruct (snd e <? snd x)%nat.
  - eapply perm_trans; [apply perm_skip, IH | apply perm_swap].
  - apply Permutation_refl.
Qed.

Lemma sort_values_desc_perm (l : list (K * nat)) :
  Permutation (sort_values_desc l) l.
Proof.
  induction l as [|x t IH]; simpl; [constructor|].
  eapply perm_trans; [apply inserir_valor_desc_perm | now apply perm_skip].
Qed.

End GroupByFacts.

Section OrdemDasChaves.

Lemma string_compare_refl (s : string) : String.compare s s = Eq.
Proof.
  induction s as [|c t IH]; simpl; [reflexivity|].
  unfold Ascii.compare. now rewrite N.compare_refl.
Qed.

Lemma string_compare_eq (a b : string) : String.compare a b = Eq <-> a = b.
Proof.
  split; [apply String.compare_eq_iff|intros ->; apply string_compare_refl].
Qed.

Lemma string_compare_trans (a : string) :
  forall b c, String.compare a b = Lt -> String.compare b c = Lt ->
              String.compare a c = Lt.
Proof.
  induction a as [|x a IH]; intros [|y b] [|z c]; simpl;
    try discriminate; try reflexivity.
  unfold Ascii.compare.
  destruct (N.compare_spec (N_of_ascii x) (N_of_ascii y)) as [E1|E1|E1];
    destruct (N.compare_spec (N_of_ascii y) (N_of_ascii z)) as [E2|E2|E2];
    destruct (N.compare_spec (N_of_ascii x) (N_of_ascii z)) as [E3|E3|E3];
    try discriminate; try reflexivity; try lia; intros H1 H2.
  - now apply (IH b c).
Qed.

Lemma Z_compare_trans (a b c : Z) :
  (a ?= b) = Lt -> (b ?= c) = Lt -> (a ?= c) = Lt.
Proof. rewrite !Z.compare_lt_iff. lia. Qed.

Lemma list_sum_perm (l1 l2 : list nat) :
  Permutation l1 l2 -> list_sum l1 = list_sum l2.
Proof.
  induction 1; simpl; lia.
Qed.

Lemma inserir_valor_desc_sorted {K : Type} (e : K * nat)
    (l : list (K * nat)) :
  StronglySorted (fun a b => (snd b <= snd a)%nat) l ->
  StronglySorted (fun a b => (snd b <= snd a)%nat) (inserir_valor_desc e l).
Proof.
  induction 1 as [|x t Hs IH Hall]; simpl.
  - constructor; constructor.
  - destruct (snd e <? snd x)%nat eqn:E.
    + apply Nat.ltb_lt in E. constructor; [exact IH|].
      apply Forall_forall. intros y Hy.
      apply (Permutation_in _ (inserir_valor_desc_perm e t)) in Hy.
      destruct Hy as [<-|Hy]; [lia|].
      now apply (proj1 (Forall_forall _ _) Hall).
    + apply Nat.ltb_ge in E. constructor; [now constructor|].
      constructor; [exact E|].
      apply Forall_forall. intros y Hy.
      pose proof (proj1 (Forall_forall _ _) Hall y Hy) as G.
      simpl in G. lia.
Qed.

Lemma sort_values_desc_sorted {K : Type} (l : list (K * nat)) :
  StronglySorted (fun a b => (snd b <= snd a)%nat) (sort_values_desc l).
Proof.
  induction l as [|x t IH]; simpl; [constructor|].
  now apply inserir_valor_desc_sorted.
Qed.

End OrdemDasChaves.

(** X20.  The count of repairs per operator has one entry for each
    operator of the frame and no other; the entry holds the number of
    lines of that operator, the counts add up to the number of lines,
    and the entries come by decreasing count. *)
Theorem reparos_por_operador_contagem (df : list Linha) :
  list_sum (map snd (reparos_por_operador df)) = List.length df /\
  NoDup (map fst (reparos_por_operador df)) /\
  StronglySorted (fun a b => (snd b <= snd a)%nat) (reparos_por_operador df) /\
  forall o n, In (o, n) (reparos_por_operador df) <->
    n = List.length
          (filter (fun l => (col_operador_id (linha_reg l) =? o)%string) df)
    /\ (0 < n)%nat.
Proof.
  unfold reparos_por_operador.
  set (ks := map (fun l => col_operador_id (linha_reg l)) df).
  pose proof (sort_values_desc_perm (groupby_size String.compare ks)) as P.
  split; [|split; [|split; [apply sort_values_desc_sorted|]]].
  - rewrite (list_sum_perm _ _ (Permutation_map snd P)).
    rewrite (list_sum_groupby String.compare). unfold ks. apply length_map.
  - eapply Permutation_NoDup;
      [apply Permutation_sym, (Permutation_map fst P)|].
    apply (crescente_NoDup String.compare string_compare_eq).
    apply (groupby_size_inv String.compare string_compare_eq
             String.compare_antisym string_compare_trans).
  - intros o n.
    assert (List.length
              (filter (eh_chave String.compare o) ks)
            = List.length
                (filter (fun l => (col_operador_id (linha_reg l) =? o)%string)
                        df)) as E.
    { unfold ks, eh_chave. clear P.
      induction df as [|l t IH]; simpl; [reflexivity|].
      destruct (String.compare o (col_operador_id (linha_reg l))) eqn:C.
      - apply string_compare_eq in C. subst o.
        rewrite String.eqb_refl. simpl. now rewrite IH.
      - destruct (String.eqb_spec (col_operador_id (linha_reg l)) o) as [<-|_];
          [now rewrite string_compare_refl in C|exact IH].
      - destruct (String.eqb_spec (col_operador_id (linha_reg l)) o) as [<-|_];
          [now rewrite string_compare_refl in C|exact IH]. }
    rewrite <- E.
    rewrite <- (groupby_size_In String.compare string_compare_eq
                  String.compare_antisym string_compare_trans).
    split; intros H.
    + now apply (Permutation_in _ P).
    + now apply (Permutation_in _ (Permutation_sym P)).
Qed.

(** X21.  The count of repairs per day has one entry per day of the
    frame, in increasing order of the day; the entry holds the number of
    lines of that day, and the counts add up to the number of lines. *)
Theorem reparos_por_data_contagem (df : list Linha) :
  list_sum (map snd (reparos_por_data df)) = List.length df /\
  StronglySorted Z.lt (map fst (reparos_por_data df)) /\
  forall d n, In (d, n) (reparos_por_data df) <->
    n = List.length (filter (fun l => data l =? d) df) /\ (0 < n)%nat.
Proof.
  unfold reparos_por_data.
  assert (forall a b : Z, (a ?= b) = CompOpp (b ?= a)) as Hanti
    by (intros; apply Z.compare_antisym).
  split; [|split].
  - rewrite (list_sum_groupby Z.compare). apply length_map.
  - destruct (groupby_size_inv Z.compare Z.compare_eq_iff Hanti
                Z_compare_trans (map data df)) as [Hs _].
    exact (StronglySorted_map fst Z.lt _ Hs).
  - intros d n.
    rewrite (groupby_size_In Z.compare Z.compare_eq_iff Hanti Z_compare_trans).
    assert (List.length
              (filter (eh_chave Z.compare d) (map data df))
            = List.length (filter (fun l => data l =? d) df)) as E.
    { unfold eh_chave. induction df as [|l t IH]; simpl; [reflexivity|].
      destruct (Z.eqb_spec (data l) d) as [->|Hne].
      - rewrite Z.compare_refl. simpl. now rewrite IH.
      - destruct (d ?= data l) eqn:C; try exact IH.
        apply Z.compare_eq in C. congruence. }
    now rewrite E.
Qed.

(* ------------------------------------------------------------------ *)
(** * The schema *)

Section Esquema.

Lemma tem_coluna_app (cols novos : list string) (c : string) :
  tem_coluna (cols ++ novos) c = tem_coluna cols c || tem_coluna novos c.
Proof. unfold tem_coluna. apply existsb_app. Qed.

Lemma tem_coluna_ultima (cols : list string) (c : string) :
  tem_coluna (cols ++ [c]) c = true.
Proof.
  rewrite tem_coluna_app. unfold tem_coluna at 2. simpl.
  rewrite String.eqb_refl. apply orb_true_r.
Qed.

(** The columns after one guarded ALTER TABLE. *)
Lemma alter_guardado (cols : list string) (c : string) :
  let cols' := match alter_add_column cols c with
               | Some x => x
               | None => cols
               end in
  tem_coluna cols' c = true /\
  (tem_coluna cols c = true -> cols' = cols) /\
  (exists novos, cols' = cols ++ novos /\ (List.length novos <= 1)%nat) /\
  forall d, tem_coluna cols d = true -> tem_coluna cols' d = true.
Proof.
  unfold alter_add_column. destruct (tem_coluna cols c) eqn:E; simpl.
  - repeat split; auto. exists []. rewrite app_nil_r. simpl. auto.
  - split; [apply tem_coluna_ultima|]. split; [discriminate|]. split.
    + exists [c]. simpl. auto.
    + intros d Hd. rewrite tem_coluna_app, Hd. reflexivity.
Qed.

End Esquema.

(** X22.  [init_db] creates the seven columns when the table is missing;
    on an existing table it keeps the columns as they are and adds
    [tipo_retrabalho] and [shop] only where missing, so that both exist
    afterwards; running it again changes nothing. *)
Theorem init_db_esquema (esquema : option (list string)) :
  init_db None = colunas_create /\
  tem_coluna (init_db esquema) "tipo_retrabalho" = true /\
  tem_coluna (init_db esquema) "shop" = true /\
  (forall cols, esquema = Some cols ->
     exists novos, init_db esquema = cols ++ novos /\
                   (List.length novos <= 2)%nat) /\
  init_db (Some (init_db esquema)) = init_db esquema.
Proof.
  split; [reflexivity|].
  unfold init_db.
  set (c0 := match esquema with Some cols => cols | None => colunas_create end).
  destruct (alter_guardado c0 "tipo_retrabalho") as (T1 & _ & (n1 & E1 & L1) & _).
  set (c1 := match alter_add_column c0 "tipo_retrabalho" with
             | Some x => x | None => c0 end) in *.
  destruct (alter_guardado c1 "shop") as (S2 & _ & (n2 & E2 & L2) & M2).
  set (c2 := match alter_add_column c1 "shop" with
             | Some x => x | None => c1 end) in *.
  pose proof (M2 _ T1) as T2.
  split; [exact T2|]. split; [exact S2|]. split.
  - intros cols ->. exists (n1 ++ n2). split.
    + subst c0. rewrite E2, E1. now rewrite app_assoc.
    + rewrite length_app. lia.
  - destruct (alter_guardado c2 "tipo_retrabalho") as (_ & K1 & _).
    rewrite (K1 T2).
    destruct (alter_guardado c2 "shop") as (_ & K2 & _).
    now rewrite (K2 S2).
Qed.

(* ------------------------------------------------------------------ *)
(** * Normalized and blank texts *)

(** X23.  Normalizing the VIN before the call changes nothing: for a
    text whose normalized form is not empty, a start and a stop give the
    same table and the same answer on the text and on its normalized
    form. *)
Theorem normalizar_antes_nao_muda (db : Tabela) (vin op : string)
    (t sh : option string) (env : Env) (now : Z) :
  strip (upper vin) <> "" ->
  iniciar_reparo db (strip (upper vin)) op t sh env
  = iniciar_reparo db vin op t sh env /\
  finalizar_reparo db (strip (upper vin)) now = finalizar_reparo db vin now.
Proof.
  intros Hn. split.
  - now apply iniciar_reparo_normalizado.
  - now apply finalizar_reparo_normalizado.
Qed.

(** X24.  On a table reached by a history from the empty one, the data
    tab shows no line for a VIN filter text that begins with a blank,
    whatever follows the blank. *)
Theorem aba_visualizar_filtro_com_branco (cs : list Chamada)
    (filtro_operador : string) (c : ascii) (resto : string)
    (di df : option Z) (ac : bool) :
  isspace c = true ->
  aba_visualizar (historia cs []) filtro_operador (String c resto) di df ac
  = [].
Proof.
  intros Hc. unfold aba_visualizar. rewrite get_registros_eq. simpl truthy.
  cbv iota.
  assert (filter (where_registros
                    (if truthy filtro_operador then Some filtro_operador
                     else None)
                    (Some (upper (String c resto))) di df ac)
                 (historia cs []) = []) as E.
  { destruct (filter _ (historia cs [])) as [|r l] eqn:F; [reflexivity|].
    exfalso.
    assert (In r (r :: l)) as Hin by now left.
    rewrite <- F in Hin. apply filter_In in Hin as [Hin Hw].
    apply where_registros_spec in Hw as (_ & Hv & _).
    specialize (Hv _ eq_refl). simpl in Hv.
    specialize (Hv ltac:(discriminate)).
    assert (vin_normalizado (col_vin r)) as Hn.
    { assert (forall db,
        (forall x, In x db -> vin_normalizado (col_vin x) /\
           strip (upper (col_operador_id x)) = col_operador_id x /\
           col_shop x <> Some "") ->
        forall x, In x (historia cs db) -> vin_normalizado (col_vin x) /\
           strip (upper (col_operador_id x)) = col_operador_id x /\
           col_shop x <> Some "") as G.
      { clear. induction cs as [|c cs IH]; intros db Hinv; simpl; [exact Hinv|].
        apply IH. now apply executar_normal. }
      apply (G [] ltac:(intros ? []) r Hin). }
    unfold vin_normalizado in Hn. rewrite Hv in Hn.
    rewrite upper_idem in Hn.
    apply strip_cabeca in Hn.
    rewrite !isspace_upper_char in Hn. congruence. }
  now rewrite E.
Qed.

(** X25.  After a successful start the VIN is on the list of open
    repairs; after a successful stop on a table with at most one open
    repair per VIN it is not. *)
Theorem abertos_apos_iniciar_e_finalizar (db db' : Tabela) (vin : string)
    (now : Z) :
  (forall op t sh env rid,
     iniciar_reparo db vin op t sh env = (db', inr rid) ->
     In (strip (upper vin)) (map ab_vin (get_reparos_abertos db' now)))
  /\
  (forall now0 res,
     um_aberto_por_vin db ->
     finalizar_reparo db vin now0 = (db', inr res) ->
     ~ In (strip (upper vin)) (map ab_vin (get_reparos_abertos db' now))).
Proof.
  split.
  - intros op t sh env rid H. apply abertos_apos_iniciar in H.
    apply in_map_iff. exists (processar_aberta now (valores_insert vin op t sh env)).
    split; [reflexivity|].
    rewrite get_reparos_abertos_eq. apply in_map.
    apply (Permutation_in _ (Permutation_sym (order_by_inicio_desc_perm _))).
    assert (In (valores_insert vin op t sh env)
               (abertos db' (strip (upper vin)))) as Hin
      by (rewrite H; now left).
    apply abertos_In in Hin as (Hin & _ & Hf).
    apply filter_In. split; [exact Hin|]. now apply is_null_spec.
  - intros now0 res Hinv H Hin.
    apply abertos_apos_finalizar in H; [|apply Hinv].
    apply in_map_iff in Hin as (l & Hl & Hin).
    rewrite get_reparos_abertos_eq in Hin.
    apply in_map_iff in Hin as (r & <- & Hr).
    apply (Permutation_in _ (order_by_inicio_desc_perm _)) in Hr.
    apply filter_In in Hr as [Hr Hn]. apply is_null_spec in Hn.
    simpl in Hl.
    assert (In r (abertos db' (strip (upper vin)))) as A
      by (apply abertos_In; auto).
    rewrite H in A. exact A.
Qed.

(* ------------------------------------------------------------------ *)
(** * More concrete runs *)

(** The filters "op1"/"abc123" and "OP1"/"AbC123" on the closed sample. *)
Lemma get_registros_sem_caixa_witness :
  upper "op1" = upper "OP1" /\ upper "abc123" = upper "AbC123" /\
  get_registros tabela_ex_fechada (Some "op1") (Some "abc123") None None true
  = get_registros tabela_ex_fechada (Some "OP1") (Some "AbC123") None None true.
Proof.
  split; [reflexivity|]. split; [reflexivity|].
  exact (get_registros_sem_caixa tabela_ex_fechada "op1" "OP1" "abc123"
           "AbC123" None None true eq_refl eq_refl).
Defined.


(** The sample VIN has an open repair: start refused, stop accepted. *)
Lemma iniciar_ou_finalizar_witness :
  "abc123" <> "" /\
  (((exists m, iniciar_reparo tabela_ex "abc123" "op2" None None env_ex2
               = (tabela_ex, inl (ReparoEmAberto m))) /\
    (exists res, snd (finalizar_reparo tabela_ex "abc123" 1290500000)
                 = inr res))
   \/
   (finalizar_reparo tabela_ex "abc123" 1290500000
    = (tabela_ex, inl NenhumReparoAberto) /\
    (snd (iniciar_reparo tabela_ex "abc123" "op2" None None env_ex2)
     = inr (uuid4 env_ex2) \/
     iniciar_reparo tabela_ex "abc123" "op2" None None env_ex2
     = (tabela_ex, inl ErroAoIniciar)))).
Proof.
  assert (Hv : "abc123" <> "") by discriminate.
  split; [exact Hv|].
  exact (iniciar_ou_finalizar tabela_ex "abc123" "op2" None None env_ex2
           1290500000 Hv).
Defined.

(** Refused start and stop at 00:21:30.5: 20 minutes both. *)
Lemma minutos_iniciar_e_finalizar_witness :
  iniciar_reparo tabela_ex "abc123" "op2" None None env_ex2
  = (tabela_ex, inl (ReparoEmAberto 20)) /\
  finalizar_reparo tabela_ex "abc123" (agora env_ex2)
  = (tabela_ex_fechada, inr ("id-1", 1200000000, "OP1")) /\
  0 <= 1200000000 /\
  minutos_int 1200000000 = 20.
Proof.
  assert (H0 : 0 <= 1200000000) by lia.
  split; [reflexivity|]. split; [reflexivity|]. split; [exact H0|].
  exact (minutos_iniciar_e_finalizar tabela_ex tabela_ex_fechada "abc123"
           "op2" None None env_ex2 20 "id-1" "OP1" 1200000000
           eq_refl eq_refl H0).
Defined.

(** The sample start and stop, with a clock that goes forward. *)
Lemma historia_inicio_antes_do_fim_witness :
  relogio_nao_recua 0
    [ChIniciar " abc123 " "op1" (Some "rework") (Some "BS") env_ex1;
     ChFinalizar "abc123" 1290500000] = true /\
  In linha_ex_fechada
     (historia
        [ChIniciar " abc123 " "op1" (Some "rework") (Some "BS") env_ex1;
         ChFinalizar "abc123" 1290500000] []) /\
  col_hora_fim linha_ex_fechada = Some 1290 /\
  col_hora_inicio linha_ex_fechada <= 1290.
Proof.
  assert (Hin : In linha_ex_fechada
     (historia
        [ChIniciar " abc123 " "op1" (Some "rework") (Some "BS") env_ex1;
         ChFinalizar "abc123" 1290500000] [])) by (now left).
  split; [reflexivity|]. split; [exact Hin|]. split; [reflexivity|].
  exact (historia_inicio_antes_do_fim
           [ChIniciar " abc123 " "op1" (Some "rework") (Some "BS") env_ex1;
            ChFinalizar "abc123" 1290500000]
           0 linha_ex_fechada 1290 eq_refl Hin eq_refl).
Defined.

(** A second repair of the sample VIN after the stop of the first. *)
Lemma iniciar_apos_finalizar_witness :
  um_aberto_por_vin tabela_ex /\
  finalizar_reparo tabela_ex "abc123" 1290500000
  = (tabela_ex_fechada, inr ("id-1", 1200000000, "OP1")) /\
  ~ In (uuid4 env_ex2) (map col_id tabela_ex_fechada) /\
  sqlite_falha env_ex2 = false /\
  iniciar_reparo tabela_ex_fechada "abc123" "op2" None (Some "PS") env_ex2
  = (tabela_ex_fechada
       ++ [mkRegistro "id-2" "ABC123" "OP2" None (Some "PS") 1290 None],
     inr "id-2").
Proof.
  assert (Hu : um_aberto_por_vin tabela_ex).
  { intros v. unfold n_abertos, abertos, tabela_ex. simpl.
    destruct (aberto_de v linha_ex); simpl; lia. }
  assert (Hf : ~ In (uuid4 env_ex2) (map col_id tabela_ex_fechada)).
  { simpl. intros [H|[]]. discriminate H. }
  split; [exact Hu|]. split; [reflexivity|]. split; [exact Hf|].
  split; [reflexivity|].
  exact (iniciar_apos_finalizar tabela_ex tabela_ex_fechada "abc123" "op2"
           None (Some "PS") env_ex2 1290500000 ("id-1", 1200000000, "OP1")
           Hu eq_refl Hf eq_refl).
Defined.

(** Start and stop of "abc123" seen from the VIN "XYZ". *)
Lemma outros_vins_intactos_witness :
  "XYZ" <> strip (upper "abc123") /\ pk_ok tabela_ex /\
  abertos (fst (iniciar_reparo tabela_ex_fechada "abc123" "op2" None None
                  env_ex2)) "XYZ"
  = abertos tabela_ex_fechada "XYZ" /\
  abertos (fst (finalizar_reparo tabela_ex "abc123" 1290500000)) "XYZ"
  = abertos tabela_ex "XYZ".
Proof.
  assert (Hne : "XYZ" <> strip (upper "abc123")) by discriminate.
  assert (Hpk : pk_ok tabela_ex).
  { unfold pk_ok. simpl. constructor; [simpl; tauto | constructor]. }
  split; [exact Hne|]. split; [exact Hpk|]. split.
  - exact (proj1 (outros_vins_intactos tabela_ex_fechada "abc123" "op2" None
                    None env_ex2 0 "XYZ" Hne)).
  - exact (proj2 (outros_vins_intactos tabela_ex "abc123" "op2" None None
                    env_ex2 1290500000 "XYZ" Hne) Hpk).
Defined.

(** A start of "xyz9" on the closed sample, searched as "Xyz9 ". *)
Lemma historico_vin_encontra_witness :
  iniciar_reparo tabela_ex_fechada "xyz9" "op2" None (Some "PS") env_ex2
  = (tabela_ex_fechada
       ++ [mkRegistro "id-2" "XYZ9" "OP2" None (Some "PS") 1290 None],
     inr "id-2") /\
  strip (upper "xyz9") <> "" /\
  strip (upper "Xyz9 ") = strip (upper "xyz9") /\
  (exists f, In f (tabela_ex_fechada
                     ++ [mkRegistro "id-2" "XYZ9" "OP2" None (Some "PS")
                           1290 None])
             /\ col_hora_fim f <> None) /\
  exists frame,
    historico_vin
      (tabela_ex_fechada
         ++ [mkRegistro "id-2" "XYZ9" "OP2" None (Some "PS") 1290 None])
      "Xyz9 " = Some frame /\
    In (processar (valores_insert "xyz9" "op2" None (Some "PS") env_ex2))
       frame /\
    forall l, In l frame -> col_vin (linha_reg l) = strip (upper "xyz9").
Proof.
  assert (Hn : strip (upper "xyz9") <> "") by discriminate.
  assert (Hc : exists f,
             In f (tabela_ex_fechada
                     ++ [mkRegistro "id-2" "XYZ9" "OP2" None (Some "PS")
                           1290 None])
             /\ col_hora_fim f <> None).
  { exists linha_ex_fechada. split; [now left|discriminate]. }
  split; [reflexivity|]. split; [exact Hn|]. split; [reflexivity|].
  split; [exact Hc|].
  exact (proj1 (historico_vin_encontra tabela_ex_fechada _ "xyz9" "op2" None
                  (Some "PS") env_ex2 "id-2" "Xyz9 " eq_refl Hn eq_refl) Hc).
Defined.

(** The same start and stop given as " abc123 " and as "ABC123". *)
Lemma normalizar_antes_nao_muda_witness :
  strip (upper " abc123 ") <> "" /\
  iniciar_reparo [] (strip (upper " abc123 ")) "op1" None None env_ex1
  = iniciar_reparo [] " abc123 " "op1" None None env_ex1 /\
  finalizar_reparo tabela_ex (strip (upper " abc123 ")) 1290500000
  = finalizar_reparo tabela_ex " abc123 " 1290500000.
Proof.
  assert (Hn : strip (upper " abc123 ") <> "") by discriminate.
  split; [exact Hn|]. split.
  - exact (proj1 (normalizar_antes_nao_muda [] " abc123 " "op1" None None
                    env_ex1 0 Hn)).
  - exact (proj2 (normalizar_antes_nao_muda tabela_ex " abc123 " "op1" None
                    None env_ex1 1290500000 Hn)).
Defined.

(** The filter " abc123" of the data tab after the sample start. *)
Lemma aba_visualizar_filtro_com_branco_witness :
  isspace " "%char = true /\
  aba_visualizar
    (historia [ChIniciar "abc123" "op1" None (Some "BS") env_ex1] [])
    "" " abc123" None None false = [].
Proof.
  split; [reflexivity|].
  exact (aba_visualizar_filtro_com_branco
           [ChIniciar "abc123" "op1" None (Some "BS") env_ex1]
           "" " "%char "abc123" None None false eq_refl).
Defined.

(** The sample VIN on the list of open repairs, after its start and after
    its stop. *)
Lemma abertos_apos_iniciar_e_finalizar_witness :
  iniciar_reparo [] " abc123 " "op1" (Some "rework") (Some "BS") env_ex1
  = (tabela_ex, inr "id-1") /\
  In (strip (upper " abc123 ")) (map ab_vin (get_reparos_abertos tabela_ex 0))
  /\
  um_aberto_por_vin tabela_ex /\
  finalizar_reparo tabela_ex "abc123" 1290500000
  = (tabela_ex_fechada, inr ("id-1", 1200000000, "OP1")) /\
  ~ In (strip (upper "abc123"))
       (map ab_vin (get_reparos_abertos tabela_ex_fechada 0)).
Proof.
  assert (Hu : um_aberto_por_vin tabela_ex).
  { intros v. unfold n_abertos, abertos, tabela_ex. simpl.
    destruct (aberto_de v linha_ex); simpl; lia. }
  split; [reflexivity|]. split; [|split; [exact Hu|split; [reflexivity|]]].
  - exact (proj1 (abertos_apos_iniciar_e_finalizar [] tabela_ex " abc123 " 0)
             "op1" (Some "rework") (Some "BS") env_ex1 "id-1" eq_refl).
  - exact (proj2 (abertos_apos_iniciar_e_finalizar tabela_ex tabela_ex_fechada
                    "abc123" 0)
             1290500000 ("id-1", 1200000000, "OP1") Hu eq_refl).
Defined.

(** A start of "abc123" through the form at 00:01:30, and the note
    computed half a second later in the same run. *)
Lemma validacao_visual_apos_submit_witness :
  aba_iniciar_submit [] "abc123" "op1" "" "BS" env_ex1 90500000
  = ([mkRegistro "id-1" "ABC123" "OP1" None (Some "BS") 90 None],
     ReparoIniciado "id-1", AvisoJaAberto 0) /\
  AvisoJaAberto 0
  = AvisoJaAberto (minutos_int (90500000 - strptime (strftime (agora env_ex1)))).
Proof.
  split; [reflexivity|].
  exact (validacao_visual_apos_submit [] "abc123" "op1" "" "BS" env_ex1
           90500000).
Defined.
